(** * autosmp: load-driven CPU hotplug (arch/arm64/hotplug/autosmp.c)

    A shallow embedding of the decision worker [asmp_work_fn], the
    suspend/resume handlers and the start/stop path behind the [enabled]
    attribute, followed by the properties of the decision engine.

    Conventions.
    - C [int] and [unsigned int] values are [Z]; every conversion and every
      wrap-around of the source is written with [to_uint] / [to_int].
    - CPU ids are [nat]; a cpumask is the bitmap it is in the kernel, a [Z]
      read with [Z.testbit].
    - The module's globals ([enabled], [tunables], [cycle], [asmp_wq],
      [asmp_work]) and the kernel's CPU masks form one state record that is
      threaded through a small state-and-log monad; the log records the
      hotplug requests ([cpu_up] / [cpu_down] calls) in program order. *)

From Stdlib Require Import ZArith List Bool Lia Arith.
Import ListNotations.
Local Open Scope Z_scope.

(** ** C integers *)

Definition UINT_MAX : Z := 4294967295.

(** Conversion to [unsigned int]. *)
Definition to_uint (z : Z) : Z := z mod 4294967296.

(** Conversion to [int]. *)
Definition to_int (z : Z) : Z := (z + 2147483648) mod 4294967296 - 2147483648.

Definition EFAULT : Z := 14.
Definition EINVAL : Z := 22.
Definition NOTIFY_OK : Z := 1.

Definition HOTPLUG_ENABLED : Z := 0.
Definition HOTPLUG_INIT_DELAY : Z := 30000.

(** ** cpumasks

    include/linux/cpumask.h is not among the sources; the operations below
    follow its contract: a mask is a bitmap indexed by CPU id, iteration is
    in ascending id order below the number of ids, and
    [cpumask_next_zero(n, mask)] searches strictly above [n]. *)

Module Cpumask.

Definition cpumask := Z.

Definition cpumask_test_cpu (cpu : nat) (m : cpumask) : bool :=
  Z.testbit m (Z.of_nat cpu).

Definition cpumask_set_cpu (cpu : nat) (m : cpumask) : cpumask :=
  Z.setbit m (Z.of_nat cpu).

Definition cpumask_clear_cpu (cpu : nat) (m : cpumask) : cpumask :=
  Z.clearbit m (Z.of_nat cpu).

(** [for_each_cpu(cpu, mask)]: the ids set in [mask], below [nr], in
    ascending order. *)
Definition for_each_cpu (nr : nat) (m : cpumask) : list nat :=
  filter (fun cpu => cpumask_test_cpu cpu m) (seq 0 nr).

(** [for_each_cpu_not(cpu, mask)]: the ids clear in [mask], below [nr]. *)
Definition for_each_cpu_not (nr : nat) (m : cpumask) : list nat :=
  filter (fun cpu => negb (cpumask_test_cpu cpu m)) (seq 0 nr).

Definition cpumask_weight (nr : nat) (m : cpumask) : nat :=
  length (for_each_cpu nr m).

(** [cpumask_next_zero(n, mask)]: the first id strictly above [n] whose
    bit is clear, [nr] when there is none. *)
Definition cpumask_next_zero (n : nat) (nr : nat) (m : cpumask) : nat :=
  match find (fun cpu => negb (cpumask_test_cpu cpu m))
             (seq (S n) (nr - S n)) with
  | Some cpu => cpu
  | None => nr
  end.

End Cpumask.
Import Cpumask.

(** ** Module state *)

Record asmp_tunables : Type := mkTunables {
  delay : Z;
  scroff_single_core : Z;
  max_cpus : Z;
  min_cpus : Z;
  cpufreq_up : Z;
  cpufreq_down : Z;
  cycle_up : Z;
  cycle_down : Z
}.

(** The [asmp_wq] pointer: never assigned or NULL, pointing to a live
    workqueue, or left pointing to a destroyed one. *)
Inductive wq_ptr : Type := WqNull | WqLive | WqDestroyed.

Record kstate : Type := mkState {
  enabled : Z;
  tunables : asmp_tunables;
  cycle : Z;
  asmp_wq : wq_ptr;
  (** [asmp_suspend_notif] is on the state notifier chain *)
  notifier_registered : bool;
  (** [asmp_work]: the delay in ms of the pending run, if one is queued *)
  asmp_work : option Z;
  cpu_online_mask : cpumask;
  cpu_present_mask : cpumask
}.

Definition set_enabled (v : Z) (st : kstate) : kstate :=
  mkState v (tunables st) (cycle st) (asmp_wq st) (notifier_registered st)
          (asmp_work st) (cpu_online_mask st) (cpu_present_mask st).

Definition set_cycle (v : Z) (st : kstate) : kstate :=
  mkState (enabled st) (tunables st) v (asmp_wq st) (notifier_registered st)
          (asmp_work st) (cpu_online_mask st) (cpu_present_mask st).

Definition set_asmp_wq (v : wq_ptr) (st : kstate) : kstate :=
  mkState (enabled st) (tunables st) (cycle st) v (notifier_registered st)
          (asmp_work st) (cpu_online_mask st) (cpu_present_mask st).

Definition set_notifier_registered (v : bool) (st : kstate) : kstate :=
  mkState (enabled st) (tunables st) (cycle st) (asmp_wq st) v
          (asmp_work st) (cpu_online_mask st) (cpu_present_mask st).

Definition set_asmp_work (v : option Z) (st : kstate) : kstate :=
  mkState (enabled st) (tunables st) (cycle st) (asmp_wq st)
          (notifier_registered st) v (cpu_online_mask st) (cpu_present_mask st).

Definition set_cpu_online_mask (v : cpumask) (st : kstate) : kstate :=
  mkState (enabled st) (tunables st) (cycle st) (asmp_wq st)
          (notifier_registered st) (asmp_work st) v (cpu_present_mask st).

(** The static initialisers; [CONFIG_NR_CPUS] is a build-time constant. *)
Definition init_tunables (CONFIG_NR_CPUS : Z) : asmp_tunables :=
  {| delay := 50;
     scroff_single_core := 1;
     max_cpus := CONFIG_NR_CPUS;
     min_cpus := 2;
     cpufreq_up := 60;
     cpufreq_down := 40;
     cycle_up := 2;
     cycle_down := 2 |}.

Definition init_state (CONFIG_NR_CPUS : Z) (online present : cpumask) : kstate :=
  {| enabled := HOTPLUG_ENABLED;
     tunables := init_tunables CONFIG_NR_CPUS;
     cycle := 0;
     asmp_wq := WqNull;
     notifier_registered := false;
     asmp_work := None;
     cpu_online_mask := online;
     cpu_present_mask := present |}.

(** ** What the kernel answers

    Everything the driver asks of the rest of the kernel during one
    activation: the number of CPU ids, the cpufreq readings, whether the
    architecture code carries a hotplug request out, and whether the
    resources of the start path can be had. *)
Record env : Type := mkEnv {
  nr_cpu_ids : nat;
  (** [policy->cur] and [policy->max] of each CPU *)
  cpufreq_cur : nat -> Z;
  cpufreq_max : nat -> Z;
  (** error of the architecture's bring-up / tear-down of a CPU, 0 for
      success *)
  arch_cpu_up_err : nat -> Z;
  arch_cpu_down_err : nat -> Z;
  alloc_workqueue_ok : bool;
  state_register_client_ret : Z;
  kobject_create_ok : bool;
  sysfs_create_group_ret : Z
}.

(** Requests to change the topology, as issued. *)
Inductive event : Type :=
| CpuUp (cpu : nat)
| CpuDown (cpu : nat).

(** ** The monad: state and a log of hotplug requests *)

Definition M (A : Type) : Type := kstate -> A * kstate * list event.

Definition ret {A} (a : A) : M A := fun st => (a, st, []).

Definition bind {A B} (m : M A) (k : A -> M B) : M B :=
  fun st =>
    let '(a, st1, l1) := m st in
    let '(b, st2, l2) := k a st1 in
    (b, st2, l1 ++ l2).

Definition get : M kstate := fun st => (st, st, []).
Definition modify (f : kstate -> kstate) : M unit := fun st => (tt, f st, []).
Definition emit (ev : event) : M unit := fun st => (tt, st, [ev]).

Declare Scope monad_scope.
Delimit Scope monad_scope with monad.
Notation "x <- m ;; k" := (bind m (fun x => k))
  (at level 61, m at next level, right associativity) : monad_scope.
Notation "m ;; k" := (bind m (fun _ => k))
  (at level 61, right associativity) : monad_scope.
Local Open Scope monad_scope.

Definition result {A} (m : M A) (st : kstate) : A := fst (fst (m st)).
Definition final {A} (m : M A) (st : kstate) : kstate := snd (fst (m st)).
Definition issued {A} (m : M A) (st : kstate) : list event := snd (m st).

Definition when (b : bool) (m : M unit) : M unit :=
  if b then m else ret tt.

Fixpoint for_each {A} (l : list A) (body : A -> M unit) : M unit :=
  match l with
  | [] => ret tt
  | a :: l' => body a ;; for_each l' body
  end.

(** ** Collaborators *)

Section Collaborators.

Variable e : env.

Definition cpu_online (cpu : nat) (st : kstate) : bool :=
  cpumask_test_cpu cpu (cpu_online_mask st).

Definition cpu_present (cpu : nat) (st : kstate) : bool :=
  cpumask_test_cpu cpu (cpu_present_mask st).

Definition cpu_possible (cpu : nat) : bool := (cpu <? nr_cpu_ids e)%nat.

Definition online_cpus (st : kstate) : list nat :=
  for_each_cpu (nr_cpu_ids e) (cpu_online_mask st).

Definition present_cpus (st : kstate) : list nat :=
  for_each_cpu (nr_cpu_ids e) (cpu_present_mask st).

Definition num_online_cpus (st : kstate) : Z :=
  Z.of_nat (cpumask_weight (nr_cpu_ids e) (cpu_online_mask st)).

(** [cpufreq_quick_get] and [cpufreq_quick_get_max] return
    [unsigned int]. *)
Definition cpufreq_quick_get (cpu : nat) : Z := to_uint (cpufreq_cur e cpu).
Definition cpufreq_quick_get_max (cpu : nat) : Z := to_uint (cpufreq_max e cpu).

(** Modelled from the spec: [bring_online(core_id) -> success/failure];
    kernel/cpu.c is not among the sources.  The request is logged; it is
    refused for an id that is not possible, not present or already
    online, fails when the architecture code fails, and otherwise sets
    the CPU's bit in [cpu_online_mask]. *)
Definition cpu_up (cpu : nat) : M Z :=
  emit (CpuUp cpu) ;;
  st <- get ;;
  if negb (cpu_possible cpu) then ret (- EINVAL)
  else if cpu_online cpu st || negb (cpu_present cpu st) then ret (- EINVAL)
  else if arch_cpu_up_err e cpu =? 0 then
    modify (set_cpu_online_mask
              (cpumask_set_cpu cpu (cpu_online_mask st))) ;;
    ret 0
  else ret (arch_cpu_up_err e cpu).

(** Modelled from the spec: [take_offline(core_id) -> success/failure];
    kernel/cpu.c is not among the sources.  The request is logged; it is
    refused for a CPU that is not online, fails when the architecture
    code fails, and otherwise clears the CPU's bit in
    [cpu_online_mask]. *)
Definition cpu_down (cpu : nat) : M Z :=
  emit (CpuDown cpu) ;;
  st <- get ;;
  if negb (cpu_online cpu st) then ret (- EINVAL)
  else if arch_cpu_down_err e cpu =? 0 then
    modify (set_cpu_online_mask
              (cpumask_clear_cpu cpu (cpu_online_mask st))) ;;
    ret 0
  else ret (arch_cpu_down_err e cpu).

(** [queue_delayed_work]: queues the work unless it is already pending. *)
Definition queue_delayed_work (ms : Z) : M unit :=
  modify (fun st =>
            match asmp_work st with
            | Some _ => st
            | None => set_asmp_work (Some ms) st
            end).

Definition cancel_delayed_work_sync : M unit :=
  modify (set_asmp_work None).

(** [INIT_DELAYED_WORK(&asmp_work, asmp_work_fn)]: a fresh work item,
    nothing pending. *)
Definition INIT_DELAYED_WORK : M unit :=
  modify (set_asmp_work None).

End Collaborators.

(** ** The decision worker *)

Section Worker.

Variable e : env.

(** The locals [slow_cpu], [slow_rate], [fast_rate] of [asmp_work_fn]. *)
Record scan_vars : Type := mkScan {
  slow_cpu : nat;
  slow_rate : Z;
  fast_rate : Z
}.

(** Body of the [for_each_online_cpu] loop of [asmp_work_fn]. *)
Definition scan_body (v : scan_vars) (cpu : nat) : scan_vars :=
  if (0 <? cpu)%nat then
    let rate := cpufreq_quick_get e cpu in
    if rate <=? slow_rate v then mkScan cpu rate (fast_rate v)
    else if fast_rate v <? rate then mkScan (slow_cpu v) (slow_rate v) rate
    else v
  else v.

Definition cpu0_rate : Z := cpufreq_quick_get e 0.

Definition scan_init : scan_vars := mkScan 0 UINT_MAX cpu0_rate.

(** The loop, run over a list of CPU ids. *)
Definition scan_over (cpus : list nat) : scan_vars :=
  fold_left scan_body cpus scan_init.

(** State of the locals when the loop over the online CPUs ends. *)
Definition scan (st : kstate) : scan_vars := scan_over (online_cpus e st).

Definition max_rate : Z := cpufreq_quick_get_max e 0.

(** [tunables.cpufreq_up * max_rate / 100], in [unsigned int]. *)
Definition up_rate (st : kstate) : Z :=
  to_uint (to_uint (cpufreq_up (tunables st)) * max_rate) / 100.

Definition down_rate (st : kstate) : Z :=
  to_uint (to_uint (cpufreq_down (tunables st)) * max_rate) / 100.

(** [int num_cpus = num_online_cpus()]. *)
Definition num_cpus (st : kstate) : Z := to_int (num_online_cpus e st).

(** [slow_rate] after [if (cpu0_rate < slow_rate) slow_rate = cpu0_rate]. *)
Definition slow_rate_final (st : kstate) : Z :=
  if cpu0_rate <? slow_rate (scan st) then cpu0_rate
  else slow_rate (scan st).

(** [cycle] after [cycle++]. *)
Definition cycle_incr (st : kstate) : Z := to_uint (cycle st + 1).

Definition asmp_work_fn : M unit :=
  modify (fun st => set_cycle (cycle_incr st) st) ;;
  st <- get ;;
  let up_rate := up_rate st in
  let down_rate := down_rate st in
  let num_cpus := num_cpus st in
  let v := scan st in
  let slow_rate := slow_rate_final st in
  (if up_rate <? slow_rate then
     when ((num_cpus <? max_cpus (tunables st)) &&
           (to_uint (cycle_up (tunables st)) <=? cycle st))
       (let cpu := cpumask_next_zero 0 (nr_cpu_ids e) (cpu_online_mask st) in
        _ <- cpu_up e cpu ;;
        modify (set_cycle 0))
   else if negb (slow_cpu v =? 0)%nat && (fast_rate v <? down_rate) then
     when ((min_cpus (tunables st) <? num_cpus) &&
           (to_uint (cycle_down (tunables st)) <=? cycle st))
       (_ <- cpu_down e (slow_cpu v) ;;
        modify (set_cycle 0))
   else ret tt) ;;
  st' <- get ;;
  queue_delayed_work (delay (tunables st')).

End Worker.

(** ** Suspend, resume and the notifier *)

Section PowerState.

Variable e : env.

Definition asmp_suspend : M unit :=
  st <- get ;;
  if enabled st =? 0 then ret tt
  else
    when (negb (scroff_single_core (tunables st) =? 0))
      (for_each (present_cpus e st)
         (fun cpu =>
            st' <- get ;;
            when ((0 <? cpu)%nat && cpu_online cpu st')
              (_ <- cpu_down e cpu ;; ret tt))) ;;
    cancel_delayed_work_sync.

(** The [for_each_present_cpu] loop of [asmp_resume]; [num_cpus] is the
    [unsigned int] local read before the loop. *)
Fixpoint resume_loop (num_cpus : Z) (cpus : list nat) : M unit :=
  match cpus with
  | [] => ret tt
  | cpu :: rest =>
      st <- get ;;
      if to_uint (max_cpus (tunables st)) <=? num_cpus then ret tt
      else
        when (negb (cpu_online cpu st)) (_ <- cpu_up e cpu ;; ret tt) ;;
        resume_loop num_cpus rest
  end.

Definition asmp_resume : M unit :=
  st <- get ;;
  if enabled st =? 0 then ret tt
  else
    when (negb (scroff_single_core (tunables st) =? 0))
      (let num_cpus := to_uint (num_online_cpus e st) in
       resume_loop num_cpus (present_cpus e st)) ;;
    st' <- get ;;
    queue_delayed_work (delay (tunables st')).

Inductive state_event : Type :=
| STATE_NOTIFIER_ACTIVE
| STATE_NOTIFIER_SUSPEND
| STATE_NOTIFIER_OTHER.

Definition state_notifier_callback (ev : state_event) : M Z :=
  st <- get ;;
  if enabled st =? 0 then ret NOTIFY_OK
  else
    match ev with
    | STATE_NOTIFIER_ACTIVE => asmp_resume
    | STATE_NOTIFIER_SUSPEND => asmp_suspend
    | STATE_NOTIFIER_OTHER => ret tt
    end ;;
    ret NOTIFY_OK.

End PowerState.

(** ** Start, stop and the [enabled] attribute *)

Section Lifecycle.

Variable e : env.

Definition asmp_hotplug_start : M Z :=
  if alloc_workqueue_ok e then
    modify (set_asmp_wq WqLive) ;;
    let r := state_register_client_ret e in
    if r =? 0 then
      modify (set_notifier_registered true) ;;
      INIT_DELAYED_WORK ;;
      queue_delayed_work HOTPLUG_INIT_DELAY ;;
      ret r
    else
      modify (set_asmp_wq WqDestroyed) ;;
      ret r
  else
    modify (set_asmp_wq WqNull) ;;
    ret (- EFAULT).

Definition asmp_hotplug_stop : M unit :=
  cancel_delayed_work_sync ;;
  modify (set_notifier_registered false) ;;
  modify (set_asmp_wq WqDestroyed) ;;
  st <- get ;;
  for_each (for_each_cpu_not (nr_cpu_ids e) (cpu_online_mask st))
    (fun cpu =>
       if (cpu =? 0)%nat then ret tt
       else _ <- cpu_up e cpu ;; ret tt).

(** [store_enabled]; [parsed] is what [sscanf(buf, "%d", &val)] read
    ([None] when it did not return 1), [count] the length of the
    write. *)
Definition store_enabled (parsed : option Z) (count : Z) : M Z :=
  st <- get ;;
  match parsed with
  | None => ret (- EINVAL)
  | Some val =>
      if (val <? 0) || (1 <? val) || (val =? enabled st) then ret (- EINVAL)
      else
        modify (set_enabled val) ;;
        (if negb (val =? 0) then _ <- asmp_hotplug_start ;; ret tt
         else asmp_hotplug_stop) ;;
        ret count
  end.

Definition asmp_probe : M Z :=
  if kobject_create_ok e then
    let r := sysfs_create_group_ret e in
    if negb (r =? 0) then ret r
    else
      st <- get ;;
      if enabled st =? 0 then ret r
      else asmp_hotplug_start
  else ret (- EFAULT).

End Lifecycle.

(** ** The tunable attributes *)

Definition set_tunables (t : asmp_tunables) (st : kstate) : kstate :=
  mkState (enabled st) t (cycle st) (asmp_wq st) (notifier_registered st)
          (asmp_work st) (cpu_online_mask st) (cpu_present_mask st).

(** The attributes that [store_one] and [create_one] generate, one per
    field of [tunables]. *)
Inductive attr : Type :=
| A_delay
| A_scroff_single_core
| A_min_cpus
| A_max_cpus
| A_cpufreq_up
| A_cpufreq_down
| A_cycle_up
| A_cycle_down.

(** [tunables.name]. *)
Definition attr_get (a : attr) (t : asmp_tunables) : Z :=
  match a with
  | A_delay => delay t
  | A_scroff_single_core => scroff_single_core t
  | A_min_cpus => min_cpus t
  | A_max_cpus => max_cpus t
  | A_cpufreq_up => cpufreq_up t
  | A_cpufreq_down => cpufreq_down t
  | A_cycle_up => cycle_up t
  | A_cycle_down => cycle_down t
  end.

(** [tunables.name = val]. *)
Definition attr_set (a : attr) (val : Z) (t : asmp_tunables) : asmp_tunables :=
  match a with
  | A_delay =>
      mkTunables val (scroff_single_core t) (max_cpus t) (min_cpus t)
                 (cpufreq_up t) (cpufreq_down t) (cycle_up t) (cycle_down t)
  | A_scroff_single_core =>
      mkTunables (delay t) val (max_cpus t) (min_cpus t)
                 (cpufreq_up t) (cpufreq_down t) (cycle_up t) (cycle_down t)
  | A_max_cpus =>
      mkTunables (delay t) (scroff_single_core t) val (min_cpus t)
                 (cpufreq_up t) (cpufreq_down t) (cycle_up t) (cycle_down t)
  | A_min_cpus =>
      mkTunables (delay t) (scroff_single_core t) (max_cpus t) val
                 (cpufreq_up t) (cpufreq_down t) (cycle_up t) (cycle_down t)
  | A_cpufreq_up =>
      mkTunables (delay t) (scroff_single_core t) (max_cpus t) (min_cpus t)
                 val (cpufreq_down t) (cycle_up t) (cycle_down t)
  | A_cpufreq_down =>
      mkTunables (delay t) (scroff_single_core t) (max_cpus t) (min_cpus t)
                 (cpufreq_up t) val (cycle_up t) (cycle_down t)
  | A_cycle_up =>
      mkTunables (delay t) (scroff_single_core t) (max_cpus t) (min_cpus t)
                 (cpufreq_up t) (cpufreq_down t) val (cycle_down t)
  | A_cycle_down =>
      mkTunables (delay t) (scroff_single_core t) (max_cpus t) (min_cpus t)
                 (cpufreq_up t) (cpufreq_down t) (cycle_up t) val
  end.

(** The [down_limit] and [up_limit] arguments of the [store_one] lines,
    read when the write is handled. *)
Definition down_limit (a : attr) (t : asmp_tunables) : Z :=
  match a with
  | A_delay => 10
  | A_scroff_single_core => 0
  | A_min_cpus => 1
  | A_max_cpus => min_cpus t
  | A_cpufreq_up => 1
  | A_cpufreq_down => 1
  | A_cycle_up => 1
  | A_cycle_down => 1
  end.

Definition up_limit (a : attr) (t : asmp_tunables) : Z :=
  match a with
  | A_delay => 10000
  | A_scroff_single_core => 1
  | A_min_cpus => max_cpus t
  | A_max_cpus => 8
  | A_cpufreq_up => 100
  | A_cpufreq_down => 100
  | A_cycle_up => 6
  | A_cycle_down => 6
  end.

(** The function [store_one(name, down_limit, up_limit)] expands to;
    [parsed] is what [sscanf(buf, "%d", &val)] read ([None] when it did not
    return 1), [count] the length of the write. *)
Definition store_one (a : attr) (parsed : option Z) (count : Z) : M Z :=
  st <- get ;;
  match parsed with
  | None => ret (- EINVAL)
  | Some val =>
      if (val <? down_limit a (tunables st)) ||
         (up_limit a (tunables st) <? val)
      then ret (- EINVAL)
      else
        modify (set_tunables (attr_set a val (tunables st))) ;;
        ret count
  end.

Definition store_delay := store_one A_delay.
Definition store_scroff_single_core := store_one A_scroff_single_core.
Definition store_min_cpus := store_one A_min_cpus.
Definition store_max_cpus := store_one A_max_cpus.
Definition store_cpufreq_up := store_one A_cpufreq_up.
Definition store_cpufreq_down := store_one A_cpufreq_down.
Definition store_cycle_up := store_one A_cycle_up.
Definition store_cycle_down := store_one A_cycle_down.

(** A series of writes to the attributes, the results dropped. *)
Definition store_all (writes : list (attr * option Z * Z)) : M unit :=
  for_each writes (fun w => _ <- store_one (fst (fst w)) (snd (fst w)) (snd w) ;;
                            ret tt).

(** Every field within the limits its attribute accepts: those of the
    [store_one] lines, the limits of [min_cpus] and [max_cpus] being each
    other's value, so [1 <= min_cpus <= max_cpus <= 8]. *)
Definition tunables_in_range (t : asmp_tunables) : Prop :=
  10 <= delay t <= 10000 /\
  0 <= scroff_single_core t <= 1 /\
  1 <= min_cpus t <= max_cpus t /\
  max_cpus t <= 8 /\
  1 <= cpufreq_up t <= 100 /\
  1 <= cpufreq_down t <= 100 /\
  1 <= cycle_up t <= 6 /\
  1 <= cycle_down t <= 6.

(** Consecutive runs of the worker, one per element of [es] (what the
    kernel answers during that run). *)
Definition run_cycles (es : list env) : M unit :=
  for_each es asmp_work_fn.

(** The bodies of the loops of [asmp_suspend], [asmp_resume] and
    [asmp_hotplug_stop], as they stand in those functions. *)
Definition suspend_body (e : env) (cpu : nat) : M unit :=
  st' <- get ;;
  when ((0 <? cpu)%nat && cpu_online cpu st') (_ <- cpu_down e cpu ;; ret tt).

Definition resume_body (e : env) (cpu : nat) : M unit :=
  st <- get ;;
  when (negb (cpu_online cpu st)) (_ <- cpu_up e cpu ;; ret tt).

Definition stop_body (e : env) (cpu : nat) : M unit :=
  if (cpu =? 0)%nat then ret tt else _ <- cpu_up e cpu ;; ret tt.

(** The requests of the suspend handler and of the stop path, as lists
    over the masks at entry. *)
Definition suspend_targets (e : env) (st : kstate) : list nat :=
  filter (fun cpu => (0 <? cpu)%nat && cpu_online cpu st) (present_cpus e st).

Definition resume_targets (e : env) (st : kstate) : list nat :=
  filter (fun cpu => negb (cpu_online cpu st)) (present_cpus e st).

Definition stop_targets (e : env) (st : kstate) : list nat :=
  filter (fun cpu => negb (cpu =? 0)%nat)
         (for_each_cpu_not (nr_cpu_ids e) (cpu_online_mask st)).

(** ** Vocabulary of the properties *)

(** The three tests of the upshift arm and the four of the downshift arm,
    on the state the worker was entered with. *)
Definition upshift_test (e : env) (st : kstate) : bool :=
  (up_rate e st <? slow_rate_final e st) &&
  (num_cpus e st <? max_cpus (tunables st)) &&
  (to_uint (cycle_up (tunables st)) <=? cycle_incr st).

Definition downshift_test (e : env) (st : kstate) : bool :=
  negb (up_rate e st <? slow_rate_final e st) &&
  negb (slow_cpu (scan e st) =? 0)%nat &&
  (fast_rate (scan e st) <? down_rate e st) &&
  (min_cpus (tunables st) <? num_cpus e st) &&
  (to_uint (cycle_down (tunables st)) <=? cycle_incr st).

Definition upshift_target (e : env) (st : kstate) : nat :=
  cpumask_next_zero 0 (nr_cpu_ids e) (cpu_online_mask st).

(** The run of the worker from [st] issued exactly one request, a
    bring-online (resp. take-offline) request. *)
Definition upshift_fired (e : env) (st : kstate) : Prop :=
  exists cpu, issued (asmp_work_fn e) st = [CpuUp cpu].

Definition downshift_fired (e : env) (st : kstate) : Prop :=
  exists cpu, issued (asmp_work_fn e) st = [CpuDown cpu].

(** What the loop has established after the CPUs of [l]: either no
    non-reference CPU was met and [slow_cpu], [slow_rate] still hold their
    initial values, or [slow_cpu] is a non-reference CPU of [l] running at
    the minimum over the non-reference CPUs of [l], and no CPU with a
    larger id runs at that minimum. *)
Definition scan_post (e : env) (l : list nat) (v : scan_vars) : Prop :=
  (slow_cpu v = 0%nat /\ slow_rate v = UINT_MAX /\
   forall c, In c l -> c = 0%nat)
  \/
  (slow_cpu v <> 0%nat /\ In (slow_cpu v) l /\
   slow_rate v = cpufreq_quick_get e (slow_cpu v) /\
   forall c, In c l -> c <> 0%nat ->
             slow_rate v <= cpufreq_quick_get e c /\
             (cpufreq_quick_get e c = slow_rate v -> (c <= slow_cpu v)%nat)).

(** [c] is the lowest-numbered CPU that is not online. *)
Definition lowest_offline (e : env) (st : kstate) (c : nat) : Prop :=
  (c < nr_cpu_ids e)%nat /\ cpu_online c st = false /\
  forall c', (c' < c)%nat -> cpu_online c' st = true.

(** [c] is the lowest-numbered CPU above the reference CPU 0 that is not
    online. *)
Definition lowest_offline_above_reference (e : env) (st : kstate) (c : nat)
  : Prop :=
  (0 < c < nr_cpu_ids e)%nat /\ cpu_online c st = false /\
  forall c', (0 < c' < c)%nat -> cpu_online c' st = true.

(** The maximum of the reference CPU's frequency and the frequencies of
    the other online CPUs: the value the description gives [fast_rate]. *)
Definition max_online_rate (e : env) (st : kstate) : Z :=
  fold_left Z.max (map (cpufreq_quick_get e) (online_cpus e st)) (cpu0_rate e).

(** [c] is an online non-reference CPU running at the minimum frequency of
    the online non-reference CPUs. *)
Definition among_slowest (e : env) (st : kstate) (c : nat) : Prop :=
  In c (online_cpus e st) /\ c <> 0%nat /\
  forall c', In c' (online_cpus e st) -> c' <> 0%nat ->
             cpufreq_quick_get e c <= cpufreq_quick_get e c'.

(** [c] has the lowest (resp. highest) id among those. *)
Definition first_of_slowest (e : env) (st : kstate) (c : nat) : Prop :=
  among_slowest e st c /\ forall c', among_slowest e st c' -> (c <= c')%nat.

Definition last_of_slowest (e : env) (st : kstate) (c : nat) : Prop :=
  among_slowest e st c /\ forall c', among_slowest e st c' -> (c' <= c)%nat.

(** The workqueue runs the pending work: the pending mark is cleared, then
    the work function is called. *)
Definition run_worker (e : env) : M unit :=
  modify (set_asmp_work None) ;; asmp_work_fn e.

(** ** Concrete machines and states *)

Module Scenario.

Definition all_succeed (max : Z) (cur : nat -> Z) : env :=
  {| nr_cpu_ids := 4;
     cpufreq_cur := cur;
     cpufreq_max := fun _ => max;
     arch_cpu_up_err := fun _ => 0;
     arch_cpu_down_err := fun _ => 0;
     alloc_workqueue_ok := true;
     state_register_client_ret := 0;
     kobject_create_ok := true;
     sysfs_create_group_ret := 0 |}.

(** As [all_succeed], but the architecture refuses every hotplug request
    with [-EBUSY]. *)
Definition hotplug_fails (max : Z) (cur : nat -> Z) : env :=
  {| nr_cpu_ids := 4;
     cpufreq_cur := cur;
     cpufreq_max := fun _ => max;
     arch_cpu_up_err := fun _ => -16;
     arch_cpu_down_err := fun _ => -16;
     alloc_workqueue_ok := true;
     state_register_client_ret := 0;
     kobject_create_ok := true;
     sysfs_create_group_ret := 0 |}.

Definition running (t : asmp_tunables) (counter : Z) (online : cpumask)
  : kstate :=
  {| enabled := 1;
     tunables := t;
     cycle := counter;
     asmp_wq := WqLive;
     notifier_registered := true;
     asmp_work := None;
     cpu_online_mask := online;
     cpu_present_mask := 15 |}.

(** Two cores online at 95% and 96% of the maximum, [cpufreq_up] 60,
    [max_cpus] 4, [cycle_up] 2, counter 2. *)
Definition busy_rates (cpu : nat) : Z :=
  match cpu with 0%nat => 950 | _ => 960 end.

Definition busy_tunables : asmp_tunables :=
  {| delay := 50; scroff_single_core := 1; max_cpus := 4; min_cpus := 2;
     cpufreq_up := 60; cpufreq_down := 40; cycle_up := 2; cycle_down := 2 |}.

Definition busy_env : env := all_succeed 1000 busy_rates.
Definition busy_state : kstate := running busy_tunables 2 3.

(** Four cores online at 90%, 20%, 30% and 40% of the maximum,
    [cpufreq_down] 95, [min_cpus] 2, [cycle_down] 1, counter 1. *)
Definition idle_rates (cpu : nat) : Z :=
  match cpu with
  | 0%nat => 900 | 1%nat => 200 | 2%nat => 300 | _ => 400
  end.

Definition idle_tunables : asmp_tunables :=
  {| delay := 50; scroff_single_core := 1; max_cpus := 4; min_cpus := 2;
     cpufreq_up := 60; cpufreq_down := 95; cycle_up := 2; cycle_down := 1 |}.

Definition idle_env : env := all_succeed 1000 idle_rates.
Definition idle_state : kstate := running idle_tunables 1 15.

(** The thresholds crossed over ([cpufreq_up] 10, [cpufreq_down] 90, both
    within the 1..100 the attributes accept): two cores online, both at
    half the maximum. *)
Definition crossed_tunables (max : Z) : asmp_tunables :=
  {| delay := 50; scroff_single_core := 1; max_cpus := max; min_cpus := 1;
     cpufreq_up := 10; cpufreq_down := 90; cycle_up := 1; cycle_down := 1 |}.

Definition crossed_env : env := all_succeed 1000 (fun _ => 500).
Definition crossed_state (max : Z) : kstate :=
  running (crossed_tunables max) 5 3.

(** The machine of [crossed_env] with [max_cpus] 2 (no room to grow) and
    with [max_cpus] 4. *)
Definition crossed_full : kstate := crossed_state 2.
Definition crossed_room : kstate := crossed_state 4.

(** The busy scenario on a machine that refuses every hotplug request. *)
Definition refusing_env : env := hotplug_fails 1000 busy_rates.

(** Reference CPU at 10% of the maximum, CPU 1 at 50%; [cpufreq_down] 40,
    [min_cpus] 1. *)
Definition uneven_rates (cpu : nat) : Z :=
  match cpu with 0%nat => 100 | _ => 500 end.

Definition uneven_tunables : asmp_tunables :=
  {| delay := 50; scroff_single_core := 1; max_cpus := 4; min_cpus := 1;
     cpufreq_up := 60; cpufreq_down := 40; cycle_up := 2; cycle_down := 2 |}.

Definition uneven_env : env := all_succeed 1000 uneven_rates.
Definition uneven_state : kstate := running uneven_tunables 1 3.

(** Reference CPU at 90%, CPUs 1 and 2 both at 30%. *)
Definition tied_rates (cpu : nat) : Z :=
  match cpu with 0%nat => 900 | _ => 300 end.

Definition tied_env : env := all_succeed 1000 tied_rates.
Definition tied_state : kstate := running busy_tunables 0 7.

(** After a suspend that left the reference CPU alone online, with
    [max_cpus] 2 and four CPUs present. *)
Definition capped_tunables : asmp_tunables :=
  {| delay := 50; scroff_single_core := 1; max_cpus := 2; min_cpus := 1;
     cpufreq_up := 60; cpufreq_down := 40; cycle_up := 2; cycle_down := 2 |}.

Definition suspended_state : kstate := running capped_tunables 0 1.

(** A machine on which [alloc_workqueue] fails, and one on which
    [state_register_client] fails with [-ENOMEM]. *)
Definition no_workqueue_env : env :=
  {| nr_cpu_ids := 4;
     cpufreq_cur := busy_rates;
     cpufreq_max := fun _ => 1000;
     arch_cpu_up_err := fun _ => 0;
     arch_cpu_down_err := fun _ => 0;
     alloc_workqueue_ok := false;
     state_register_client_ret := 0;
     kobject_create_ok := true;
     sysfs_create_group_ret := 0 |}.

Definition no_notifier_env : env :=
  {| nr_cpu_ids := 4;
     cpufreq_cur := busy_rates;
     cpufreq_max := fun _ => 1000;
     arch_cpu_up_err := fun _ => 0;
     arch_cpu_down_err := fun _ => 0;
     alloc_workqueue_ok := true;
     state_register_client_ret := -12;
     kobject_create_ok := true;
     sysfs_create_group_ret := 0 |}.

(** The module as loaded on a four-CPU machine with two CPUs online. *)
Definition loaded : kstate := init_state 4 3 15.

(** Write 1 to [enabled], let the worker run once, write 0. *)
Definition start_run_stop : M Z :=
  _ <- store_enabled busy_env (Some 1) 2 ;;
  run_worker busy_env ;;
  store_enabled busy_env (Some 0) 2.

(** The state in which that leaves the module. *)
Definition stopped : kstate := final start_run_stop loaded.

(** The busy rates on the four-CPU machine with every CPU online and the
    tunables of a kernel built with [CONFIG_NR_CPUS] 8 ([max_cpus] 8). *)
Definition all_online_state : kstate := running (init_tunables 8) 2 15.

(** The busy rates with CPU 1 alone online: the reference CPU is
    offline. *)
Definition reference_offline_state : kstate := running busy_tunables 2 2.

(** The module started on the loaded machine. *)
Definition started : kstate :=
  final (store_enabled busy_env (Some 1) 2) loaded.

End Scenario.

(** ** Running the model *)

Lemma to_uint_range z : 0 <= to_uint z <= UINT_MAX.
Proof.
  unfold to_uint, UINT_MAX.
  pose proof (Z.mod_pos_bound z 4294967296 ltac:(lia)). lia.
Qed.

Lemma cpufreq_quick_get_range e cpu :
  0 <= cpufreq_quick_get e cpu <= UINT_MAX.
Proof. apply to_uint_range. Qed.

Lemma issued_cpu_up e cpu st : issued (cpu_up e cpu) st = [CpuUp cpu].
Proof.
  unfold issued, cpu_up, bind, emit, get, modify, ret; simpl.
  destruct (negb (cpu_possible e cpu)); [reflexivity|].
  destruct (cpu_online cpu st || negb (cpu_present cpu st)); [reflexivity|].
  destruct (arch_cpu_up_err e cpu =? 0); reflexivity.
Qed.

Lemma issued_cpu_down e cpu st : issued (cpu_down e cpu) st = [CpuDown cpu].
Proof.
  unfold issued, cpu_down, bind, emit, get, modify, ret; simpl.
  destruct (negb (cpu_online cpu st)); [reflexivity|].
  destruct (arch_cpu_down_err e cpu =? 0); reflexivity.
Qed.

Lemma issued_bind {A B} (m : M A) (k : A -> M B) st :
  issued (bind m k) st = issued m st ++ issued (k (result m st)) (final m st).
Proof.
  unfold issued, result, final, bind.
  destruct (m st) as [[a st1] l1]; simpl.
  destruct (k a st1) as [[b st2] l2]; reflexivity.
Qed.

Lemma final_bind {A B} (m : M A) (k : A -> M B) st :
  final (bind m k) st = final (k (result m st)) (final m st).
Proof.
  unfold result, final, bind.
  destruct (m st) as [[a st1] l1]; simpl.
  destruct (k a st1) as [[b st2] l2]; reflexivity.
Qed.

Lemma result_bind {A B} (m : M A) (k : A -> M B) st :
  result (bind m k) st = result (k (result m st)) (final m st).
Proof.
  unfold result, final, bind.
  destruct (m st) as [[a st1] l1]; simpl.
  destruct (k a st1) as [[b st2] l2]; reflexivity.
Qed.

Lemma result_get st : result get st = st.
Proof. reflexivity. Qed.
Lemma final_get st : final get st = st.
Proof. reflexivity. Qed.
Lemma issued_get st : issued get st = [].
Proof. reflexivity. Qed.
Lemma final_modify f st : final (modify f) st = f st.
Proof. reflexivity. Qed.
Lemma issued_modify f st : issued (modify f) st = [].
Proof. reflexivity. Qed.
Lemma result_ret {A} (a : A) st : result (ret a) st = a.
Proof. reflexivity. Qed.
Lemma final_ret {A} (a : A) st : final (ret a) st = st.
Proof. reflexivity. Qed.
Lemma issued_ret {A} (a : A) st : issued (ret a) st = [].
Proof. reflexivity. Qed.

Lemma final_queue_delayed_work ms st :
  final (queue_delayed_work ms) st =
  match asmp_work st with Some _ => st | None => set_asmp_work (Some ms) st end.
Proof. reflexivity. Qed.

Lemma issued_queue_delayed_work ms st : issued (queue_delayed_work ms) st = [].
Proof. reflexivity. Qed.

Lemma cycle_queue_delayed_work ms st :
  cycle (final (queue_delayed_work ms) st) = cycle st.
Proof. rewrite final_queue_delayed_work. destruct (asmp_work st); reflexivity. Qed.

Create Rewrite HintDb run.
#[local] Hint Rewrite @issued_bind @final_bind @result_bind
  result_get final_get issued_get final_modify issued_modify
  @result_ret @final_ret @issued_ret
  issued_queue_delayed_work cycle_queue_delayed_work
  issued_cpu_up issued_cpu_down app_nil_r : run.

(** The worker reads the tunables and the masks of the state it was entered
    with: [cycle++] changes neither. *)
Lemma locals_after_incr e st :
  let st1 := set_cycle (cycle_incr st) st in
  up_rate e st1 = up_rate e st /\ down_rate e st1 = down_rate e st /\
  num_cpus e st1 = num_cpus e st /\ scan e st1 = scan e st /\
  slow_rate_final e st1 = slow_rate_final e st /\
  tunables st1 = tunables st /\ cycle st1 = cycle_incr st /\
  cpu_online_mask st1 = cpu_online_mask st.
Proof. repeat split. Qed.

(** The hotplug requests of one run of the worker. *)
Lemma asmp_work_fn_issued e st :
  issued (asmp_work_fn e) st =
  if upshift_test e st then [CpuUp (upshift_target e st)]
  else if downshift_test e st then [CpuDown (slow_cpu (scan e st))]
  else [].
Proof.
  unfold asmp_work_fn, upshift_test, downshift_test, upshift_target.
  autorewrite with run.
  destruct (locals_after_incr e st) as (-> & -> & -> & -> & -> & -> & -> & ->).
  destruct (up_rate e st <? slow_rate_final e st); simpl.
  - destruct ((num_cpus e st <? max_cpus (tunables st)) &&
              (to_uint (cycle_up (tunables st)) <=? cycle_incr st));
      simpl; autorewrite with run; reflexivity.
  - destruct (negb (slow_cpu (scan e st) =? 0)%nat); simpl;
      [|autorewrite with run; reflexivity].
    destruct (fast_rate (scan e st) <? down_rate e st); simpl;
      [|autorewrite with run; reflexivity].
    destruct ((min_cpus (tunables st) <? num_cpus e st) &&
              (to_uint (cycle_down (tunables st)) <=? cycle_incr st));
      simpl; autorewrite with run; reflexivity.
Qed.

Lemma final_cpu_up e cpu st :
  final (cpu_up e cpu) st =
  if cpu_possible e cpu && negb (cpu_online cpu st) && cpu_present cpu st &&
     (arch_cpu_up_err e cpu =? 0)
  then set_cpu_online_mask (cpumask_set_cpu cpu (cpu_online_mask st)) st
  else st.
Proof.
  unfold final, cpu_up, bind, emit, get, modify, ret; simpl.
  destruct (cpu_possible e cpu); simpl; [|reflexivity].
  destruct (cpu_online cpu st); simpl; [reflexivity|].
  destruct (cpu_present cpu st); simpl; [|reflexivity].
  destruct (arch_cpu_up_err e cpu =? 0); reflexivity.
Qed.

Lemma final_cpu_down e cpu st :
  final (cpu_down e cpu) st =
  if cpu_online cpu st && (arch_cpu_down_err e cpu =? 0)
  then set_cpu_online_mask (cpumask_clear_cpu cpu (cpu_online_mask st)) st
  else st.
Proof.
  unfold final, cpu_down, bind, emit, get, modify, ret; simpl.
  destruct (cpu_online cpu st); simpl; [|reflexivity].
  destruct (arch_cpu_down_err e cpu =? 0); reflexivity.
Qed.

(** The state one run of the worker leaves behind. *)
Lemma asmp_work_fn_final e st :
  let st1 := set_cycle (cycle_incr st) st in
  final (asmp_work_fn e) st =
  final (queue_delayed_work (delay (tunables st)))
    (if upshift_test e st
     then set_cycle 0 (final (cpu_up e (upshift_target e st)) st1)
     else if downshift_test e st
     then set_cycle 0 (final (cpu_down e (slow_cpu (scan e st))) st1)
     else st1).
Proof.
  intros st1; subst st1.
  assert (Hup : forall cpu s, tunables (final (cpu_up e cpu) s) = tunables s).
  { intros cpu s. rewrite final_cpu_up.
    destruct (_ && _); reflexivity. }
  assert (Hdn : forall cpu s, tunables (final (cpu_down e cpu) s) = tunables s).
  { intros cpu s. rewrite final_cpu_down.
    destruct (_ && _); reflexivity. }
  unfold asmp_work_fn, upshift_test, downshift_test, upshift_target.
  autorewrite with run.
  destruct (locals_after_incr e st) as (-> & -> & -> & -> & -> & -> & -> & ->).
  destruct (up_rate e st <? slow_rate_final e st); simpl.
  - destruct ((num_cpus e st <? max_cpus (tunables st)) &&
              (to_uint (cycle_up (tunables st)) <=? cycle_incr st));
      simpl; autorewrite with run; [|reflexivity].
    simpl. rewrite Hup. reflexivity.
  - destruct (negb (slow_cpu (scan e st) =? 0)%nat); simpl;
      [|autorewrite with run; reflexivity].
    destruct (fast_rate (scan e st) <? down_rate e st); simpl;
      [|autorewrite with run; reflexivity].
    destruct ((min_cpus (tunables st) <? num_cpus e st) &&
              (to_uint (cycle_down (tunables st)) <=? cycle_incr st));
      simpl; autorewrite with run; [|reflexivity].
    simpl. rewrite Hdn. reflexivity.
Qed.

Lemma cycle_final_cpu_up e cpu st : cycle (final (cpu_up e cpu) st) = cycle st.
Proof. rewrite final_cpu_up. destruct (_ && _); reflexivity. Qed.

Lemma cycle_final_cpu_down e cpu st :
  cycle (final (cpu_down e cpu) st) = cycle st.
Proof. rewrite final_cpu_down. destruct (_ && _); reflexivity. Qed.

(** [cycle] after one run: 0 when a request was issued, the incremented
    counter otherwise. *)
Lemma asmp_work_fn_cycle e st :
  cycle (final (asmp_work_fn e) st) =
  if upshift_test e st || downshift_test e st then 0 else cycle_incr st.
Proof.
  rewrite asmp_work_fn_final, cycle_queue_delayed_work.
  destruct (upshift_test e st); simpl; [reflexivity|].
  destruct (downshift_test e st); reflexivity.
Qed.

(** ** The scan over the online CPUs *)

Section Scan.

Variable e : env.

Lemma scan_over_snoc l cpu :
  scan_over e (l ++ [cpu]) = scan_body e (scan_over e l) cpu.
Proof. unfold scan_over. rewrite fold_left_app. reflexivity. Qed.

Lemma in_filter_seq (p : nat -> bool) n c :
  In c (filter p (seq 0 n)) <-> (c < n)%nat /\ p c = true.
Proof. rewrite filter_In, in_seq. intuition lia. Qed.

Lemma scan_over_post (p : nat -> bool) n :
  scan_post e (filter p (seq 0 n)) (scan_over e (filter p (seq 0 n))).
Proof.
  induction n as [|n IH].
  - left. simpl. repeat split; intros c [].
  - rewrite seq_S, filter_app. simpl.
    destruct (p n) eqn:Hp; [|rewrite app_nil_r; exact IH].
    rewrite scan_over_snoc.
    set (l := filter p (seq 0 n)) in *.
    set (v := scan_over e l) in *.
    assert (Hlt : forall c, In c l -> (c < n)%nat)
      by (intros c Hc; apply in_filter_seq in Hc; tauto).
    pose proof (cpufreq_quick_get_range e n) as Hr.
    unfold scan_body.
    destruct (0 <? n)%nat eqn:Hn.
    + apply Nat.ltb_lt in Hn.
      assert (Hlast : In n (l ++ [n]))
        by (apply in_or_app; right; left; reflexivity).
      destruct IH as [(H0 & Hs & Hall) | (H0 & Hin & Hs & Hall)].
      * (* first non-reference CPU: always taken *)
        rewrite Hs. destruct (Z.leb_spec (cpufreq_quick_get e n) UINT_MAX); [|lia].
        right; simpl. split; [lia|]. split; [exact Hlast|].
        split; [reflexivity|].
        intros c Hc Hnz.
        apply in_app_or in Hc as [Hc | [<- | []]]; [|split; lia].
        apply Hall in Hc. contradiction.
      * destruct (Z.leb_spec (cpufreq_quick_get e n) (slow_rate v)) as [Hle | Hgt].
        -- right; simpl. split; [lia|]. split; [exact Hlast|].
           split; [reflexivity|].
           intros c Hc Hnz.
           apply in_app_or in Hc as [Hc | [<- | []]]; [|split; lia].
           destruct (Hall c Hc Hnz) as [Hmin _].
           apply Hlt in Hc. split; lia.
        -- assert (Hkeep :
             forall f, scan_post e (l ++ [n]) (mkScan (slow_cpu v) (slow_rate v) f)).
           { intros f. right; simpl. split; [exact H0|].
             split; [apply in_or_app; left; exact Hin|].
             split; [exact Hs|].
             intros c Hc Hnz.
             apply in_app_or in Hc as [Hc | [<- | []]]; [|split; lia].
             exact (Hall c Hc Hnz). }
           destruct (fast_rate v <? cpufreq_quick_get e n); [apply Hkeep|].
           destruct v as [sc sr fr]; apply Hkeep.
    + apply Nat.ltb_ge in Hn. assert (n = 0%nat) by lia. subst n.
      destruct IH as [(H0 & Hs & Hall) | (H0 & Hin & Hs & Hall)].
      * left. repeat split; trivial.
        intros c Hc. apply in_app_or in Hc as [Hc | [<- | []]]; auto.
      * exfalso. apply Hlt in Hin. lia.
Qed.

Lemma scan_post_online st : scan_post e (online_cpus e st) (scan e st).
Proof. apply scan_over_post. Qed.

Lemma in_online_cpus st c :
  In c (online_cpus e st) <-> (c < nr_cpu_ids e)%nat /\ cpu_online c st = true.
Proof. apply in_filter_seq. Qed.

(** A [slow_cpu] other than 0 is an online CPU. *)
Lemma slow_cpu_online st :
  slow_cpu (scan e st) <> 0%nat ->
  (slow_cpu (scan e st) < nr_cpu_ids e)%nat /\
  cpu_online (slow_cpu (scan e st)) st = true.
Proof.
  intros Hs. destruct (scan_post_online st) as [(H0 & _) | (_ & Hin & _)].
  - contradiction.
  - apply in_online_cpus. exact Hin.
Qed.

End Scan.

(** ** Searching a cpumask *)

Lemma find_seq_first (p : nat -> bool) len : forall a c,
  find p (seq a len) = Some c ->
  (a <= c < a + len)%nat /\ p c = true /\
  forall c', (a <= c' < c)%nat -> p c' = false.
Proof.
  induction len as [|len IH]; intros a c; simpl.
  - discriminate.
  - destruct (p a) eqn:Hp.
    + intros [= <-]. repeat split; try lia; trivial.
    + intros Hf. apply IH in Hf as (Hr & Hc & Hmin).
      repeat split; try lia; trivial.
      intros c' Hc'. destruct (Nat.eq_dec c' a) as [-> | Hne]; trivial.
      apply Hmin. lia.
Qed.

Lemma find_seq_none (p : nat -> bool) a len :
  find p (seq a len) = None ->
  forall c', (a <= c' < a + len)%nat -> p c' = false.
Proof.
  intros Hf c' Hc'. apply (find_none p _ Hf). apply in_seq. exact Hc'.
Qed.

(** [cpumask_next_zero n nr m] is the least id above [n] and below [nr]
    whose bit is clear, if there is one, and [nr] otherwise. *)
Lemma cpumask_next_zero_found n nr m c :
  (n < c < nr)%nat -> cpumask_test_cpu c m = false ->
  let z := cpumask_next_zero n nr m in
  (n < z <= c)%nat /\ cpumask_test_cpu z m = false /\
  forall c', (n < c' < z)%nat -> cpumask_test_cpu c' m = true.
Proof.
  intros Hc Hclear. unfold cpumask_next_zero.
  destruct (find _ _) as [z|] eqn:Hf; simpl.
  - apply find_seq_first in Hf as (Hr & Hz & Hmin).
    apply negb_true_iff in Hz.
    assert (Hbelow : forall c', (n < c' < z)%nat -> cpumask_test_cpu c' m = true).
    { intros c' Hc'. apply negb_false_iff. apply Hmin. lia. }
    repeat split; try lia; trivial.
    destruct (le_lt_dec z c) as [Hle | Hlt]; trivial.
    rewrite Hbelow in Hclear by lia. discriminate.
  - pose proof (find_seq_none _ _ _ Hf c ltac:(lia)) as Hn.
    simpl in Hn. rewrite Hclear in Hn. discriminate.
Qed.

Lemma cpumask_next_zero_none n nr m :
  (forall c, (n < c < nr)%nat -> cpumask_test_cpu c m = true) ->
  cpumask_next_zero n nr m = nr.
Proof.
  intros Hall. unfold cpumask_next_zero.
  destruct (find _ _) as [z|] eqn:Hf; trivial.
  apply find_seq_first in Hf as (Hr & Hz & _).
  rewrite Hall in Hz by lia. discriminate.
Qed.

Lemma upshift_target_lowest e st :
  cpu_online 0 st = true ->
  (exists c, (c < nr_cpu_ids e)%nat /\ cpu_online c st = false) ->
  lowest_offline e st (upshift_target e st).
Proof.
  intros H0 (c & Hc & Hoff).
  assert (c <> 0%nat) by (intros ->; congruence).
  destruct (cpumask_next_zero_found 0 (nr_cpu_ids e) (cpu_online_mask st) c
              ltac:(lia) Hoff) as (Hr & Hz & Hmin).
  unfold lowest_offline, upshift_target. repeat split; try lia; trivial.
  intros c' Hc'. destruct c' as [|c']; trivial. apply Hmin. lia.
Qed.

(** Below [n], either some id fails [p] or [filter] keeps all [n] ids. *)
Lemma filter_seq_full (p : nat -> bool) n :
  (exists c, (c < n)%nat /\ p c = false) \/
  length (filter p (seq 0 n)) = n.
Proof.
  induction n as [|n [(c & Hc & Hp) | IH]].
  - right. reflexivity.
  - left. exists c. split; [lia | exact Hp].
  - destruct (p n) eqn:Hp.
    + right. rewrite seq_S, filter_app, length_app. simpl. rewrite Hp, IH.
      simpl. lia.
    + left. exists n. split; [lia | exact Hp].
Qed.

(** With fewer CPUs online than there are ids, some CPU is offline. *)
Lemma offline_cpu_exists e st :
  num_online_cpus e st < Z.of_nat (nr_cpu_ids e) ->
  exists c, (c < nr_cpu_ids e)%nat /\ cpu_online c st = false.
Proof.
  unfold num_online_cpus, cpumask_weight, for_each_cpu. intros Hlt.
  destruct (filter_seq_full
              (fun cpu => cpumask_test_cpu cpu (cpu_online_mask st))
              (nr_cpu_ids e)) as [Hex | Hfull]; [exact Hex | lia].
Qed.

Lemma online_mask_queue_delayed_work ms st :
  cpu_online_mask (final (queue_delayed_work ms) st) = cpu_online_mask st.
Proof. rewrite final_queue_delayed_work. destruct (asmp_work st); reflexivity. Qed.

Lemma cpumask_test_set cpu cpu' m :
  cpumask_test_cpu cpu' (cpumask_set_cpu cpu m) =
  (cpu =? cpu')%nat || cpumask_test_cpu cpu' m.
Proof.
  unfold cpumask_test_cpu, cpumask_set_cpu.
  rewrite Z.setbit_eqb by lia.
  destruct (Nat.eqb_spec cpu cpu') as [-> | Hne].
  - rewrite Z.eqb_refl. reflexivity.
  - destruct (Z.eqb_spec (Z.of_nat cpu) (Z.of_nat cpu')); [lia|reflexivity].
Qed.

Lemma cpumask_test_clear cpu cpu' m :
  cpumask_test_cpu cpu' (cpumask_clear_cpu cpu m) =
  negb (cpu =? cpu')%nat && cpumask_test_cpu cpu' m.
Proof.
  unfold cpumask_test_cpu, cpumask_clear_cpu.
  rewrite Z.clearbit_eqb.
  destruct (Nat.eqb_spec cpu cpu') as [-> | Hne].
  - rewrite Z.eqb_refl. simpl. apply andb_false_r.
  - destruct (Z.eqb_spec (Z.of_nat cpu) (Z.of_nat cpu')); [lia|].
    simpl. apply andb_true_r.
Qed.

(** ** The decision rules *)

Lemma upshift_test_true e st :
  upshift_test e st = true <->
  up_rate e st < slow_rate_final e st /\
  num_cpus e st < max_cpus (tunables st) /\
  to_uint (cycle_up (tunables st)) <= cycle_incr st.
Proof.
  unfold upshift_test.
  rewrite !andb_true_iff, !Z.ltb_lt, Z.leb_le. tauto.
Qed.

Lemma downshift_test_true e st :
  downshift_test e st = true <->
  ~ up_rate e st < slow_rate_final e st /\
  slow_cpu (scan e st) <> 0%nat /\
  fast_rate (scan e st) < down_rate e st /\
  min_cpus (tunables st) < num_cpus e st /\
  to_uint (cycle_down (tunables st)) <= cycle_incr st.
Proof.
  unfold downshift_test.
  rewrite !andb_true_iff, !negb_true_iff, Nat.eqb_neq, !Z.ltb_lt, Z.leb_le,
    Z.ltb_ge.
  intuition lia.
Qed.

Lemma downshift_excludes_upshift e st :
  downshift_test e st = true -> upshift_test e st = false.
Proof.
  unfold downshift_test, upshift_test.
  destruct (up_rate e st <? slow_rate_final e st); simpl; congruence.
Qed.

Lemma upshift_fired_test e st :
  upshift_fired e st <-> upshift_test e st = true.
Proof.
  unfold upshift_fired. rewrite asmp_work_fn_issued. split.
  - intros [cpu H]. destruct (upshift_test e st); trivial.
    destruct (downshift_test e st); discriminate.
  - intros ->. eexists; reflexivity.
Qed.

Lemma downshift_fired_test e st :
  downshift_fired e st <-> downshift_test e st = true.
Proof.
  unfold downshift_fired. rewrite asmp_work_fn_issued. split.
  - intros [cpu H]. destruct (upshift_test e st); [discriminate|].
    destruct (downshift_test e st); [trivial|discriminate].
  - intros H. rewrite (downshift_excludes_upshift _ _ H), H.
    eexists; reflexivity.
Qed.

Lemma to_uint_small z : 0 <= z <= UINT_MAX -> to_uint z = z.
Proof. unfold to_uint, UINT_MAX. intros H. apply Z.mod_small. lia. Qed.

(** ** Properties of the decision worker *)

(** Some CPU is offline whenever the upshift test passes with [max_cpus]
    within the number of CPU ids. *)
Lemma upshift_has_offline_cpu e st :
  Z.of_nat (nr_cpu_ids e) < 2147483648 ->
  max_cpus (tunables st) <= Z.of_nat (nr_cpu_ids e) ->
  upshift_test e st = true ->
  exists c, (c < nr_cpu_ids e)%nat /\ cpu_online c st = false.
Proof.
  intros Hnr Hmax Hup. apply offline_cpu_exists.
  apply upshift_test_true in Hup as (_ & Hnum & _).
  unfold num_cpus, to_int in Hnum.
  assert (Hle : 0 <= num_online_cpus e st <= Z.of_nat (nr_cpu_ids e)).
  { unfold num_online_cpus, cpumask_weight, for_each_cpu. split; [lia|].
    pose proof (filter_length_le
                  (fun cpu => cpumask_test_cpu cpu (cpu_online_mask st))
                  (seq 0 (nr_cpu_ids e))) as H.
    rewrite length_seq in H. lia. }
  rewrite Z.mod_small in Hnum by lia. lia.
Qed.

Lemma online_after_upshift e st :
  upshift_test e st = true ->
  cpu_online_mask (final (asmp_work_fn e) st) =
  cpu_online_mask (final (cpu_up e (upshift_target e st))
                     (set_cycle (cycle_incr st) st)).
Proof.
  intros H. rewrite asmp_work_fn_final, online_mask_queue_delayed_work, H.
  reflexivity.
Qed.

Lemma online_after_downshift e st :
  downshift_test e st = true ->
  cpu_online_mask (final (asmp_work_fn e) st) =
  cpu_online_mask (final (cpu_down e (slow_cpu (scan e st)))
                     (set_cycle (cycle_incr st) st)).
Proof.
  intros H. rewrite asmp_work_fn_final, online_mask_queue_delayed_work.
  rewrite (downshift_excludes_upshift _ _ H), H. reflexivity.
Qed.

Lemma upshift_target_lowest_above_reference e st :
  (exists c, (0 < c < nr_cpu_ids e)%nat /\ cpu_online c st = false) ->
  lowest_offline_above_reference e st (upshift_target e st).
Proof.
  intros (c & Hc & Hoff).
  destruct (cpumask_next_zero_found 0 (nr_cpu_ids e) (cpu_online_mask st) c
              Hc Hoff) as (Hr & Hz & Hmin).
  unfold lowest_offline_above_reference, upshift_target.
  split; [lia|]. split; [exact Hz|]. exact Hmin.
Qed.

(** C1, as stated, fails in its second half.  On a four-CPU machine with
    every CPU online and [max_cpus] 8 (the initial value under
    [CONFIG_NR_CPUS] 8) the upshift fires and requests id 4, while no CPU
    is offline at all.  With CPU 1 alone online it fires and requests
    CPU 2, while the lowest-numbered offline CPU is CPU 0. *)
Lemma upshift_target_not_lowest_offline :
  (upshift_fired Scenario.busy_env Scenario.all_online_state /\
   issued (asmp_work_fn Scenario.busy_env) Scenario.all_online_state
   = [CpuUp 4] /\
   forall c, ~ lowest_offline Scenario.busy_env Scenario.all_online_state c) /\
  (upshift_fired Scenario.busy_env Scenario.reference_offline_state /\
   issued (asmp_work_fn Scenario.busy_env) Scenario.reference_offline_state
   = [CpuUp 2] /\
   lowest_offline Scenario.busy_env Scenario.reference_offline_state 0).
Proof.
  split; split.
  - exists 4%nat. reflexivity.
  - split; [reflexivity|].
    intros c (Hlt & Hoff & _).
    change (nr_cpu_ids Scenario.busy_env) with 4%nat in Hlt.
    destruct c as [|[|[|[|c]]]]; try discriminate Hoff. lia.
  - exists 2%nat. reflexivity.
  - split; [reflexivity|].
    split; [vm_compute; lia|]. split; [reflexivity|].
    intros c' Hc'. lia.
Qed.

(** C1, amended. The worker issues a bring-online request exactly when
    [slow_rate > up_rate], the online count is below [max_cpus] and the
    incremented counter has reached [cycle_up] (the comparison the source
    makes, in [unsigned int]); the counter is 0 afterwards.  When some CPU
    above the reference CPU 0 is offline, the request is for the
    lowest-numbered such CPU (the search of [cpumask_next_zero] starts
    above id 0, so CPU 0 is never the target), and that CPU is online
    afterwards when it is present and the architecture carries the request
    out. *)
Theorem upshift_rule e st :
  (upshift_fired e st <->
     up_rate e st < slow_rate_final e st /\
     num_cpus e st < max_cpus (tunables st) /\
     to_uint (cycle_up (tunables st)) <= cycle_incr st) /\
  (upshift_fired e st ->
     cycle (final (asmp_work_fn e) st) = 0 /\
     ((exists c, (0 < c < nr_cpu_ids e)%nat /\ cpu_online c st = false) ->
      issued (asmp_work_fn e) st = [CpuUp (upshift_target e st)] /\
      lowest_offline_above_reference e st (upshift_target e st) /\
      (cpu_present (upshift_target e st) st = true ->
       arch_cpu_up_err e (upshift_target e st) = 0 ->
       cpu_online (upshift_target e st) (final (asmp_work_fn e) st) = true))).
Proof.
  split.
  - rewrite upshift_fired_test. apply upshift_test_true.
  - intros Hf. apply upshift_fired_test in Hf.
    split; [rewrite asmp_work_fn_cycle, Hf; reflexivity|].
    intros Hoff.
    split; [rewrite asmp_work_fn_issued, Hf; reflexivity|].
    pose proof (upshift_target_lowest_above_reference e st Hoff) as Hlow.
    split; [exact Hlow|].
    destruct Hlow as (Hnr & Hc & _). intros Hp Herr.
    unfold cpu_online at 1. rewrite (online_after_upshift _ _ Hf), final_cpu_up.
    unfold cpu_possible.
    change (cpu_online (upshift_target e st) (set_cycle (cycle_incr st) st))
      with (cpu_online (upshift_target e st) st).
    change (cpu_present (upshift_target e st) (set_cycle (cycle_incr st) st))
      with (cpu_present (upshift_target e st) st).
    rewrite Hc, Hp, Herr.
    assert (Hlt : (upshift_target e st <? nr_cpu_ids e)%nat = true)
      by (apply Nat.ltb_lt; lia).
    rewrite Hlt. simpl.
    rewrite cpumask_test_set, Nat.eqb_refl. reflexivity.
Qed.

(** The busy scenario: both cores above the up threshold, two of four
    online; CPU 2 is requested and comes online. *)
Lemma upshift_rule_witness :
  upshift_fired Scenario.busy_env Scenario.busy_state /\
  issued (asmp_work_fn Scenario.busy_env) Scenario.busy_state = [CpuUp 2] /\
  lowest_offline_above_reference Scenario.busy_env Scenario.busy_state 2 /\
  cpu_online 2 (final (asmp_work_fn Scenario.busy_env) Scenario.busy_state)
  = true /\
  cycle (final (asmp_work_fn Scenario.busy_env) Scenario.busy_state) = 0.
Proof.
  destruct (upshift_rule Scenario.busy_env Scenario.busy_state)
    as [Hiff Hfire].
  assert (Hf : upshift_fired Scenario.busy_env Scenario.busy_state).
  { apply Hiff. vm_compute. repeat split; discriminate. }
  destruct (Hfire Hf) as (Hcyc & Hlow).
  assert (Hex : exists c, (0 < c < nr_cpu_ids Scenario.busy_env)%nat /\
                          cpu_online c Scenario.busy_state = false).
  { exists 2%nat. split; [vm_compute; lia | reflexivity]. }
  destruct (Hlow Hex) as (Hi & Hl & Hon).
  split; [exact Hf|]. split; [exact Hi|]. split; [exact Hl|].
  split; [|exact Hcyc].
  apply Hon; reflexivity.
Defined.

(** C2, as stated, fails: with the thresholds crossed over
    ([cpufreq_up] 10, [cpufreq_down] 90) and two cores at half the maximum,
    a non-reference [slow_cpu] is identified, [fast_rate < down_rate], the
    online count exceeds [min_cpus] and the counter has reached
    [cycle_down]; yet no take-offline request is issued, because
    [slow_rate > up_rate] sends the worker into the upshift arm. *)
Lemma downshift_not_only_its_four_conditions :
  ~ (downshift_fired Scenario.crossed_env Scenario.crossed_full <->
       slow_cpu (scan Scenario.crossed_env Scenario.crossed_full) <> 0%nat /\
       fast_rate (scan Scenario.crossed_env Scenario.crossed_full)
         < down_rate Scenario.crossed_env Scenario.crossed_full /\
       min_cpus (tunables Scenario.crossed_full)
         < num_cpus Scenario.crossed_env Scenario.crossed_full /\
       to_uint (cycle_down (tunables Scenario.crossed_full))
         <= cycle_incr Scenario.crossed_full).
Proof.
  intros [_ H].
  assert (Hf : downshift_fired Scenario.crossed_env Scenario.crossed_full).
  { apply H. vm_compute. repeat split; discriminate. }
  destruct Hf as [cpu Hc]. vm_compute in Hc. discriminate.
Qed.

(** C2, amended. The worker issues a take-offline request exactly when
    the upshift test [slow_rate > up_rate] fails, a non-reference
    [slow_cpu] was identified, [fast_rate < down_rate], the online count is
    above [min_cpus] and the incremented counter has reached [cycle_down].
    When it does, the request is for [slow_cpu], an online CPU, the counter
    is 0 afterwards, and [slow_cpu] is offline afterwards when the
    architecture carries the request out. *)
Theorem downshift_rule e st :
  (downshift_fired e st <->
     ~ up_rate e st < slow_rate_final e st /\
     slow_cpu (scan e st) <> 0%nat /\
     fast_rate (scan e st) < down_rate e st /\
     min_cpus (tunables st) < num_cpus e st /\
     to_uint (cycle_down (tunables st)) <= cycle_incr st) /\
  (downshift_fired e st ->
     issued (asmp_work_fn e) st = [CpuDown (slow_cpu (scan e st))] /\
     cycle (final (asmp_work_fn e) st) = 0 /\
     cpu_online (slow_cpu (scan e st)) st = true /\
     (arch_cpu_down_err e (slow_cpu (scan e st)) = 0 ->
      cpu_online (slow_cpu (scan e st)) (final (asmp_work_fn e) st) = false)).
Proof.
  split.
  - rewrite downshift_fired_test. apply downshift_test_true.
  - intros Hf. apply downshift_fired_test in Hf.
    pose proof (downshift_excludes_upshift _ _ Hf) as Hu.
    split; [rewrite asmp_work_fn_issued, Hu, Hf; reflexivity|].
    split; [rewrite asmp_work_fn_cycle, Hu, Hf; reflexivity|].
    assert (Hon : cpu_online (slow_cpu (scan e st)) st = true).
    { apply slow_cpu_online. apply downshift_test_true in Hf. tauto. }
    split; [exact Hon|].
    intros Herr. unfold cpu_online at 1.
    rewrite (online_after_downshift _ _ Hf), final_cpu_down.
    change (cpu_online (slow_cpu (scan e st)) (set_cycle (cycle_incr st) st))
      with (cpu_online (slow_cpu (scan e st)) st).
    rewrite Hon, Herr. simpl.
    rewrite cpumask_test_clear, Nat.eqb_refl. reflexivity.
Qed.

(** The idle scenario: every core below the down threshold, four online;
    CPU 1, the slowest, is requested and goes offline. *)
Lemma downshift_rule_witness :
  downshift_fired Scenario.idle_env Scenario.idle_state /\
  issued (asmp_work_fn Scenario.idle_env) Scenario.idle_state = [CpuDown 1] /\
  cpu_online 1 (final (asmp_work_fn Scenario.idle_env) Scenario.idle_state)
  = false /\
  cycle (final (asmp_work_fn Scenario.idle_env) Scenario.idle_state) = 0.
Proof.
  destruct (downshift_rule Scenario.idle_env Scenario.idle_state)
    as [Hiff Hfire].
  assert (Hf : downshift_fired Scenario.idle_env Scenario.idle_state).
  { apply Hiff. vm_compute. repeat split; discriminate. }
  destruct (Hfire Hf) as (Hi & Hcyc & _ & Hoff).
  split; [exact Hf|]. split; [exact Hi|]. split; [|exact Hcyc].
  apply Hoff. reflexivity.
Defined.

(** C3. One run of the worker issues at most one hotplug request, whatever
    the readings and the tunables. *)
Theorem one_request_per_cycle e st :
  (length (issued (asmp_work_fn e) st) <= 1)%nat.
Proof.
  rewrite asmp_work_fn_issued.
  destruct (upshift_test e st); [simpl; lia|].
  destruct (downshift_test e st); simpl; lia.
Qed.

(** With the thresholds crossed over and room to grow, the conditions of
    both rules hold at once; the bring-online request alone is issued. *)
Example both_rules_hold_one_request :
  (up_rate Scenario.crossed_env Scenario.crossed_room
     < slow_rate_final Scenario.crossed_env Scenario.crossed_room /\
   num_cpus Scenario.crossed_env Scenario.crossed_room
     < max_cpus (tunables Scenario.crossed_room) /\
   to_uint (cycle_up (tunables Scenario.crossed_room))
     <= cycle_incr Scenario.crossed_room) /\
  (slow_cpu (scan Scenario.crossed_env Scenario.crossed_room) <> 0%nat /\
   fast_rate (scan Scenario.crossed_env Scenario.crossed_room)
     < down_rate Scenario.crossed_env Scenario.crossed_room /\
   min_cpus (tunables Scenario.crossed_room)
     < num_cpus Scenario.crossed_env Scenario.crossed_room /\
   to_uint (cycle_down (tunables Scenario.crossed_room))
     <= cycle_incr Scenario.crossed_room) /\
  issued (asmp_work_fn Scenario.crossed_env) Scenario.crossed_room
  = [CpuUp 2].
Proof. vm_compute. repeat split; discriminate. Qed.

(** C10. Whenever a run of the worker issues a request, [cycle] is 0
    afterwards, whatever the architecture answers to the request. *)
Theorem reset_whatever_the_request_returns e st :
  upshift_fired e st \/ downshift_fired e st ->
  cycle (final (asmp_work_fn e) st) = 0.
Proof.
  rewrite upshift_fired_test, downshift_fired_test, asmp_work_fn_cycle.
  intros [-> | ->]; [reflexivity|]. rewrite orb_true_r. reflexivity.
Qed.

(** The busy scenario on a machine that refuses every hotplug request:
    the bring-online request for CPU 2 returns [-EBUSY], the online mask is
    unchanged, and the counter is 0 all the same. *)
Lemma reset_whatever_the_request_returns_witness :
  upshift_fired Scenario.refusing_env Scenario.busy_state /\
  result (cpu_up Scenario.refusing_env 2)
    (set_cycle (cycle_incr Scenario.busy_state) Scenario.busy_state) = -16 /\
  cpu_online_mask (final (asmp_work_fn Scenario.refusing_env)
                     Scenario.busy_state)
  = cpu_online_mask Scenario.busy_state /\
  cycle (final (asmp_work_fn Scenario.refusing_env) Scenario.busy_state) = 0.
Proof.
  assert (Hf : upshift_fired Scenario.refusing_env Scenario.busy_state)
    by (exists 2%nat; reflexivity).
  split; [exact Hf|]. split; [reflexivity|]. split; [reflexivity|].
  apply (reset_whatever_the_request_returns
           Scenario.refusing_env Scenario.busy_state).
  left. exact Hf.
Defined.

(** ** Properties of the scan *)

(** C4 fails on the code.  With the reference CPU at 100 and CPU 1 at 500,
    the scan takes CPU 1 as the new slowest (its rate is below the initial
    [UINT_MAX]) and, being in the [else] of that test, never compares it
    with [fast_rate]: [fast_rate] stays 100 while the maximum observed is
    500.  The worker then takes CPU 1 offline although it runs above the
    down threshold of 400. *)
Theorem fast_rate_misses_new_slowest :
  fast_rate (scan Scenario.uneven_env Scenario.uneven_state) = 100 /\
  max_online_rate Scenario.uneven_env Scenario.uneven_state = 500 /\
  down_rate Scenario.uneven_env Scenario.uneven_state = 400 /\
  issued (asmp_work_fn Scenario.uneven_env) Scenario.uneven_state
  = [CpuDown 1].
Proof. repeat split. Qed.

(** [fast_rate] never exceeds a frequency that was read: it is the
    reference rate or the rate of a CPU of the list. *)
Lemma fast_rate_observed e l :
  fast_rate (scan_over e l) = cpu0_rate e \/
  exists c, In c l /\ fast_rate (scan_over e l) = cpufreq_quick_get e c.
Proof.
  induction l as [|c l IH] using rev_ind.
  - left. reflexivity.
  - rewrite scan_over_snoc.
    assert (Hold : fast_rate (scan_over e l) = cpu0_rate e \/
                   exists c', In c' (l ++ [c]) /\
                     fast_rate (scan_over e l) = cpufreq_quick_get e c').
    { destruct IH as [IH | (c' & Hin & IH)]; [left; exact IH|].
      right. exists c'. split; [apply in_or_app; left; exact Hin | exact IH]. }
    unfold scan_body. destruct (0 <? c)%nat; [|exact Hold].
    destruct (cpufreq_quick_get e c <=? slow_rate (scan_over e l));
      [exact Hold|].
    destruct (fast_rate (scan_over e l) <? cpufreq_quick_get e c);
      [|exact Hold].
    right. exists c. split; [|reflexivity].
    apply in_or_app; right; left; reflexivity.
Qed.

(** C5, as stated, fails: with CPUs 1 and 2 both at the minimum, the scan
    ends with [slow_cpu] 2, which is not the lowest-numbered of the two. *)
Lemma slow_cpu_not_first_of_slowest :
  ~ first_of_slowest Scenario.tied_env Scenario.tied_state
      (slow_cpu (scan Scenario.tied_env Scenario.tied_state)).
Proof.
  intros [_ Hmin].
  assert (H1 : among_slowest Scenario.tied_env Scenario.tied_state 1).
  { split; [vm_compute; tauto|]. split; [discriminate|].
    intros c' Hin _. vm_compute in Hin.
    destruct Hin as [<- | [<- | [<- | []]]]; vm_compute; discriminate. }
  apply Hmin in H1. vm_compute in H1. lia.
Qed.

(** C5, amended. Whenever some non-reference CPU is online, the scan ends
    with [slow_cpu] the highest-numbered of the online non-reference CPUs
    running at their minimum frequency (the last one met in ascending id
    order: [rate <= slow_rate] lets a later CPU at the same rate replace
    an earlier one), and [slow_rate] is that frequency. *)
Theorem slow_cpu_last_of_slowest e st :
  (exists c, In c (online_cpus e st) /\ c <> 0%nat) ->
  last_of_slowest e st (slow_cpu (scan e st)) /\
  slow_rate (scan e st) = cpufreq_quick_get e (slow_cpu (scan e st)).
Proof.
  intros (c & Hc & Hnz).
  destruct (scan_post_online e st) as [(_ & _ & Hall) | (H0 & Hin & Hs & Hall)].
  - apply Hall in Hc. contradiction.
  - split; [|exact Hs]. split.
    + split; [exact Hin|]. split; [exact H0|].
      intros c' Hc' Hnz'. rewrite <- Hs. apply Hall; assumption.
    + intros c' (Hc' & Hnz' & Hmin').
      destruct (Hall c' Hc' Hnz') as [Hle Htie]. apply Htie.
      specialize (Hmin' _ Hin H0). lia.
Qed.

Lemma slow_cpu_last_of_slowest_witness :
  (exists c, In c (online_cpus Scenario.tied_env Scenario.tied_state) /\
             c <> 0%nat) /\
  last_of_slowest Scenario.tied_env Scenario.tied_state 2 /\
  slow_rate (scan Scenario.tied_env Scenario.tied_state) = 300.
Proof.
  assert (Hex : exists c,
             In c (online_cpus Scenario.tied_env Scenario.tied_state) /\
             c <> 0%nat).
  { exists 1%nat. split; [vm_compute; tauto | discriminate]. }
  destruct (slow_cpu_last_of_slowest Scenario.tied_env Scenario.tied_state Hex)
    as [Hlast Hrate].
  split; [exact Hex|]. split; [exact Hlast | exact Hrate].
Defined.

(** ** The reference CPU stays online *)

Lemma for_each_issued {A} (Q : event -> Prop) (body : A -> M unit) l :
  (forall a st, Forall Q (issued (body a) st)) ->
  forall st, Forall Q (issued (for_each l body) st).
Proof.
  intros Hb. induction l as [|a l IH]; intros st; simpl.
  - constructor.
  - rewrite issued_bind. apply Forall_app. split; [apply Hb | apply IH].
Qed.

Lemma for_each_final {A} (P : kstate -> Prop) (body : A -> M unit) l :
  (forall a st, P st -> P (final (body a) st)) ->
  forall st, P st -> P (final (for_each l body) st).
Proof.
  intros Hb. induction l as [|a l IH]; intros st Hst; simpl.
  - exact Hst.
  - rewrite final_bind. apply IH. apply Hb. exact Hst.
Qed.

Lemma cpu0_after_cpu_down e cpu st :
  cpu <> 0%nat ->
  cpu_online 0 (final (cpu_down e cpu) st) = cpu_online 0 st.
Proof.
  intros Hne. rewrite final_cpu_down.
  destruct (_ && _); [|reflexivity].
  unfold cpu_online; simpl. rewrite cpumask_test_clear.
  destruct (Nat.eqb_spec cpu 0); [contradiction|reflexivity].
Qed.

Lemma cpu0_after_cpu_up e cpu st :
  cpu <> 0%nat \/ cpu_possible e cpu = false ->
  cpu_online 0 (final (cpu_up e cpu) st) = cpu_online 0 st.
Proof.
  intros Hc. rewrite final_cpu_up.
  destruct (cpu_possible e cpu) eqn:Hp; simpl; [|reflexivity].
  destruct Hc as [Hne | Hc]; [|discriminate].
  destruct (negb (cpu_online cpu st) && cpu_present cpu st && _);
    [|reflexivity].
  unfold cpu_online; simpl. rewrite cpumask_test_set.
  destruct (Nat.eqb_spec cpu 0); [contradiction|reflexivity].
Qed.

Lemma upshift_target_not_reference e st :
  upshift_target e st <> 0%nat \/ cpu_possible e (upshift_target e st) = false.
Proof.
  unfold upshift_target, cpumask_next_zero, cpu_possible.
  destruct (find _ _) as [z|] eqn:Hf.
  - apply find_seq_first in Hf as (Hr & _). left. lia.
  - right. apply Nat.ltb_irrefl.
Qed.

(** The body of the suspend loop. *)
Lemma suspend_body_issued e cpu st :
  Forall (fun ev => ev <> CpuDown 0)
    (issued (st' <- get ;;
             when ((0 <? cpu)%nat && cpu_online cpu st')
               (_ <- cpu_down e cpu ;; ret tt)) st).
Proof.
  autorewrite with run. simpl.
  destruct (Nat.ltb_spec 0 cpu) as [Hlt | Hge]; simpl;
    [|rewrite issued_ret; constructor].
  destruct (cpu_online cpu st); simpl; [|rewrite issued_ret; constructor].
  autorewrite with run. constructor; [|constructor].
  intros [= ->]. lia.
Qed.

Lemma suspend_body_cpu0 e cpu b st :
  cpu_online 0 st = b ->
  cpu_online 0 (final (st' <- get ;;
                       when ((0 <? cpu)%nat && cpu_online cpu st')
                         (_ <- cpu_down e cpu ;; ret tt)) st) = b.
Proof.
  intros Hb. autorewrite with run.
  destruct (Nat.ltb_spec 0 cpu) as [Hlt | Hge]; simpl; [|exact Hb].
  destruct (cpu_online cpu st); simpl; [|exact Hb].
  autorewrite with run. rewrite cpu0_after_cpu_down by lia. exact Hb.
Qed.

Lemma asmp_suspend_issued e st :
  Forall (fun ev => ev <> CpuDown 0) (issued (asmp_suspend e) st).
Proof.
  unfold asmp_suspend, cancel_delayed_work_sync. autorewrite with run.
  destruct (enabled st =? 0); [rewrite issued_ret; constructor|].
  autorewrite with run.
  destruct (negb (scroff_single_core (tunables st) =? 0)); simpl;
    [|rewrite issued_ret; constructor].
  apply for_each_issued. intros cpu s. apply suspend_body_issued.
Qed.

Lemma asmp_suspend_cpu0 e st :
  cpu_online 0 (final (asmp_suspend e) st) = cpu_online 0 st.
Proof.
  unfold asmp_suspend, cancel_delayed_work_sync. autorewrite with run.
  destruct (enabled st =? 0); [reflexivity|].
  autorewrite with run.
  match goal with
  | |- cpu_online 0 (set_asmp_work None ?s) = _ =>
      change (cpu_online 0 (set_asmp_work None s)) with (cpu_online 0 s)
  end.
  destruct (negb (scroff_single_core (tunables st) =? 0)); simpl;
    [|reflexivity].
  apply (for_each_final (fun s => cpu_online 0 s = cpu_online 0 st));
    [|reflexivity].
  intros cpu s Hs. apply suspend_body_cpu0. exact Hs.
Qed.

Lemma asmp_work_fn_cpu0 e st :
  cpu_online 0 (final (asmp_work_fn e) st) = cpu_online 0 st.
Proof.
  unfold cpu_online at 1.
  rewrite asmp_work_fn_final, online_mask_queue_delayed_work.
  destruct (upshift_test e st).
  - apply (cpu0_after_cpu_up e _ (set_cycle (cycle_incr st) st)).
    apply upshift_target_not_reference.
  - destruct (downshift_test e st) eqn:Hd; [|reflexivity].
    apply (cpu0_after_cpu_down e _ (set_cycle (cycle_incr st) st)).
    apply downshift_test_true in Hd. tauto.
Qed.

(** C6. The reference CPU is never taken offline: the loop of the scan
    assigns only ids above 0 to [slow_cpu]; neither a run of the worker nor
    the suspend handler issues a take-offline request for CPU 0; and
    neither changes whether CPU 0 is online. *)
Theorem reference_cpu_never_offlined e st :
  (forall v cpu, slow_cpu (scan_body e v cpu) = slow_cpu v \/
                 (slow_cpu (scan_body e v cpu) = cpu /\ cpu <> 0%nat)) /\
  ~ In (CpuDown 0) (issued (asmp_work_fn e) st) /\
  ~ In (CpuDown 0) (issued (asmp_suspend e) st) /\
  cpu_online 0 (final (asmp_work_fn e) st) = cpu_online 0 st /\
  cpu_online 0 (final (asmp_suspend e) st) = cpu_online 0 st.
Proof.
  split; [|split; [|split; [|split]]].
  - intros v cpu. unfold scan_body.
    destruct (Nat.ltb_spec 0 cpu) as [Hlt | Hge]; [|left; reflexivity].
    destruct (cpufreq_quick_get e cpu <=? slow_rate v);
      [right; simpl; split; [reflexivity | lia]|].
    destruct (fast_rate v <? cpufreq_quick_get e cpu); left; reflexivity.
  - rewrite asmp_work_fn_issued.
    destruct (upshift_test e st); [intros [[=] | []]|].
    destruct (downshift_test e st) eqn:Hd; [|intros []].
    apply downshift_test_true in Hd.
    intros [[= H] | []]. tauto.
  - intros Hin.
    pose proof (asmp_suspend_issued e st) as Hall.
    rewrite Forall_forall in Hall. exact (Hall _ Hin eq_refl).
  - apply asmp_work_fn_cpu0.
  - apply asmp_suspend_cpu0.
Qed.

(** ** Resume *)

(** C7 fails on the code.  [asmp_resume] reads the online count once,
    before its loop, and the loop tests that stale value: with one CPU
    online, four present and [max_cpus] 2 the test never becomes true, all
    three offline CPUs are requested and the online count ends at 4. *)
Theorem resume_overshoots_max_cpus :
  max_cpus (tunables Scenario.suspended_state) = 2 /\
  present_cpus Scenario.busy_env Scenario.suspended_state = [0; 1; 2; 3]%nat /\
  num_online_cpus Scenario.busy_env Scenario.suspended_state = 1 /\
  issued (asmp_resume Scenario.busy_env) Scenario.suspended_state
  = [CpuUp 1; CpuUp 2; CpuUp 3] /\
  num_online_cpus Scenario.busy_env
    (final (asmp_resume Scenario.busy_env) Scenario.suspended_state) = 4.
Proof. repeat split. Qed.

(** The limit is honoured only when it is already reached at entry: the
    loop then issues nothing. *)
Lemma resume_loop_at_limit e n l st :
  to_uint (max_cpus (tunables st)) <= n ->
  issued (resume_loop e n l) st = [] /\ final (resume_loop e n l) st = st.
Proof.
  intros Hn. destruct l as [|cpu l]; simpl; [split; reflexivity|].
  autorewrite with run. apply Z.leb_le in Hn. rewrite Hn.
  split; reflexivity.
Qed.

(** ** Start, stop and the counter *)

Lemma cycle_asmp_hotplug_start e st :
  cycle (final (asmp_hotplug_start e) st) = cycle st.
Proof.
  unfold asmp_hotplug_start.
  destruct (alloc_workqueue_ok e); [|reflexivity].
  autorewrite with run.
  destruct (state_register_client_ret e =? 0); autorewrite with run;
    reflexivity.
Qed.

Lemma cycle_asmp_hotplug_stop e st :
  cycle (final (asmp_hotplug_stop e) st) = cycle st.
Proof.
  unfold asmp_hotplug_stop, cancel_delayed_work_sync. autorewrite with run.
  apply (for_each_final (fun s => cycle s = cycle st)); [|reflexivity].
  intros cpu s Hs. destruct (cpu =? 0)%nat; [exact Hs|].
  autorewrite with run. rewrite cycle_final_cpu_up. exact Hs.
Qed.

(** C8, as stated, fails: after a start, one run of the worker and a stop,
    the module is disabled with [cycle] at 1; the next write of 1 to
    [enabled] succeeds and leaves [cycle] at 1. *)
Lemma restart_keeps_old_counter :
  enabled Scenario.stopped = 0 /\
  cycle Scenario.stopped = 1 /\
  result (store_enabled Scenario.busy_env (Some 1) 2) Scenario.stopped = 2 /\
  enabled (final (store_enabled Scenario.busy_env (Some 1) 2)
             Scenario.stopped) = 1 /\
  cycle (final (store_enabled Scenario.busy_env (Some 1) 2)
           Scenario.stopped) <> 0.
Proof. vm_compute. repeat split; discriminate. Qed.

(** C8, amended. [cycle] is 0 when the module is loaded (its static
    initialiser), and neither [asmp_hotplug_start] nor a write to
    [enabled] changes it: at the first start it is 0, at a later start it
    has the value it had at the previous stop. *)
Theorem start_leaves_cycle e st :
  (forall nr_cpus online present,
      cycle (init_state nr_cpus online present) = 0) /\
  cycle (final (asmp_hotplug_start e) st) = cycle st /\
  (forall parsed count,
      cycle (final (store_enabled e parsed count) st) = cycle st).
Proof.
  split; [reflexivity|]. split; [apply cycle_asmp_hotplug_start|].
  intros parsed count. unfold store_enabled. autorewrite with run.
  destruct parsed as [val|]; [|reflexivity].
  destruct ((val <? 0) || (1 <? val) || (val =? enabled st)); [reflexivity|].
  autorewrite with run.
  destruct (negb (val =? 0)); autorewrite with run.
  - rewrite cycle_asmp_hotplug_start. reflexivity.
  - rewrite cycle_asmp_hotplug_stop. reflexivity.
Qed.

(** ** Start failures behind the [enabled] attribute *)

(** [store_enabled] drops what [asmp_hotplug_start] returns: an accepted
    write of 1 returns [count] and leaves [enabled] at 1. *)
Lemma store_enabled_drops_start_result e count st :
  enabled st = 0 ->
  result (store_enabled e (Some 1) count) st = count /\
  enabled (final (store_enabled e (Some 1) count) st) = 1.
Proof.
  intros H0. unfold store_enabled. autorewrite with run.
  rewrite H0. simpl. autorewrite with run. split; [reflexivity|].
  unfold asmp_hotplug_start.
  destruct (alloc_workqueue_ok e); [|reflexivity].
  autorewrite with run.
  destruct (state_register_client_ret e =? 0); autorewrite with run;
    [|reflexivity].
  rewrite final_queue_delayed_work. simpl.
  destruct (asmp_work st); reflexivity.
Qed.

(** [asmp_probe], the other caller, hands the result of the start on. *)
Lemma asmp_probe_reports_start_result e st :
  kobject_create_ok e = true -> sysfs_create_group_ret e = 0 ->
  enabled st <> 0 ->
  result (asmp_probe e) st = result (asmp_hotplug_start e) st.
Proof.
  intros Hk Hs Hen. unfold asmp_probe. rewrite Hk, Hs. simpl.
  autorewrite with run. apply Z.eqb_neq in Hen. rewrite Hen. reflexivity.
Qed.

(** C9 fails on the code.  On a machine where [alloc_workqueue] fails,
    and on one where [state_register_client] fails, writing 1 to [enabled]
    of the freshly loaded module makes [asmp_hotplug_start] return an
    error, yet [store_enabled] returns [count] and [enabled] stays 1, with
    no work queued. *)
Theorem store_enabled_hides_start_failure :
  enabled Scenario.loaded = 0 /\
  (result (asmp_hotplug_start Scenario.no_workqueue_env)
     (set_enabled 1 Scenario.loaded) = - EFAULT /\
   result (store_enabled Scenario.no_workqueue_env (Some 1) 2)
     Scenario.loaded = 2 /\
   enabled (final (store_enabled Scenario.no_workqueue_env (Some 1) 2)
              Scenario.loaded) = 1 /\
   asmp_work (final (store_enabled Scenario.no_workqueue_env (Some 1) 2)
                Scenario.loaded) = None) /\
  (result (asmp_hotplug_start Scenario.no_notifier_env)
     (set_enabled 1 Scenario.loaded) = -12 /\
   result (store_enabled Scenario.no_notifier_env (Some 1) 2)
     Scenario.loaded = 2 /\
   enabled (final (store_enabled Scenario.no_notifier_env (Some 1) 2)
              Scenario.loaded) = 1 /\
   asmp_work (final (store_enabled Scenario.no_notifier_env (Some 1) 2)
                Scenario.loaded) = None).
Proof. repeat split. Qed.

(** ** Further properties of the worker *)

Lemma set_cpu_online_mask_same st :
  set_cpu_online_mask (cpu_online_mask st) st = st.
Proof. destruct st; reflexivity. Qed.

(** A hotplug request changes nothing but [cpu_online_mask]. *)
Lemma cpu_up_frame e cpu st :
  exists m, final (cpu_up e cpu) st = set_cpu_online_mask m st.
Proof.
  rewrite final_cpu_up. destruct (_ && _).
  - eexists; reflexivity.
  - exists (cpu_online_mask st). symmetry. apply set_cpu_online_mask_same.
Qed.

Lemma cpu_down_frame e cpu st :
  exists m, final (cpu_down e cpu) st = set_cpu_online_mask m st.
Proof.
  rewrite final_cpu_down. destruct (_ && _).
  - eexists; reflexivity.
  - exists (cpu_online_mask st). symmetry. apply set_cpu_online_mask_same.
Qed.

(** The state after a run, up to the counter, the online mask and the
    pending work. *)
Lemma asmp_work_fn_frame e st :
  exists c m,
    final (asmp_work_fn e) st =
    final (queue_delayed_work (delay (tunables st)))
      (set_cycle c (set_cpu_online_mask m st)).
Proof.
  rewrite asmp_work_fn_final.
  destruct (upshift_test e st); [|destruct (downshift_test e st)].
  - destruct (cpu_up_frame e (upshift_target e st)
                (set_cycle (cycle_incr st) st)) as [m ->].
    exists 0, m. reflexivity.
  - destruct (cpu_down_frame e (slow_cpu (scan e st))
                (set_cycle (cycle_incr st) st)) as [m ->].
    exists 0, m. reflexivity.
  - exists (cycle_incr st), (cpu_online_mask st).
    rewrite set_cpu_online_mask_same. reflexivity.
Qed.

(** X1. Every run of the worker re-arms it: dispatched by the live
    workqueue (pending mark cleared, then the function called), the worker
    ends with its work queued again after [tunables.delay] ms, whichever
    arm it took. *)
Theorem worker_rearms_itself e st :
  asmp_wq st = WqLive ->
  asmp_work (final (run_worker e) st) = Some (delay (tunables st)).
Proof.
  intros _. unfold run_worker. rewrite final_bind, final_modify.
  destruct (asmp_work_fn_frame e (set_asmp_work None st)) as (c & m & ->).
  reflexivity.
Qed.

Lemma worker_rearms_itself_witness :
  asmp_wq Scenario.busy_state = WqLive /\
  asmp_work (final (run_worker Scenario.busy_env) Scenario.busy_state)
  = Some 50.
Proof.
  assert (Hwq : asmp_wq Scenario.busy_state = WqLive) by reflexivity.
  split; [exact Hwq|].
  exact (worker_rearms_itself Scenario.busy_env Scenario.busy_state Hwq).
Defined.

(** X2. A run of the worker leaves [enabled], the tunables, the workqueue
    pointer, the notifier registration and [cpu_present_mask] as they
    were. *)
Theorem worker_touches_only_its_own e st :
  enabled (final (asmp_work_fn e) st) = enabled st /\
  tunables (final (asmp_work_fn e) st) = tunables st /\
  asmp_wq (final (asmp_work_fn e) st) = asmp_wq st /\
  notifier_registered (final (asmp_work_fn e) st) = notifier_registered st /\
  cpu_present_mask (final (asmp_work_fn e) st) = cpu_present_mask st.
Proof.
  destruct (asmp_work_fn_frame e st) as (c & m & ->).
  rewrite final_queue_delayed_work.
  destruct (asmp_work _); repeat split.
Qed.

Lemma fast_rate_scan_body e v cpu :
  fast_rate v <= fast_rate (scan_body e v cpu).
Proof.
  unfold scan_body. destruct (0 <? cpu)%nat; [|lia].
  destruct (cpufreq_quick_get e cpu <=? slow_rate v); simpl; [lia|].
  destruct (Z.ltb_spec (fast_rate v) (cpufreq_quick_get e cpu)); simpl; lia.
Qed.

Lemma fast_rate_at_least_cpu0 e l : cpu0_rate e <= fast_rate (scan_over e l).
Proof.
  induction l as [|c l IH] using rev_ind.
  - simpl. lia.
  - rewrite scan_over_snoc.
    pose proof (fast_rate_scan_body e (scan_over e l) c). lia.
Qed.

Lemma slow_rate_final_at_most_cpu0 e st : slow_rate_final e st <= cpu0_rate e.
Proof.
  unfold slow_rate_final.
  destruct (Z.ltb_spec (cpu0_rate e) (slow_rate (scan e st))); lia.
Qed.

(** X3. The slowest rate the worker decides on never exceeds the fastest:
    [slow_rate <= cpu0_rate <= fast_rate].  Hence, with the down threshold
    not above the up threshold, readings that pass the downshift test
    [fast_rate < down_rate] fail the upshift test [slow_rate > up_rate]. *)
Theorem slow_rate_below_fast_rate e st :
  slow_rate_final e st <= cpu0_rate e <= fast_rate (scan e st) /\
  (down_rate e st <= up_rate e st ->
   fast_rate (scan e st) < down_rate e st ->
   slow_rate_final e st <= up_rate e st).
Proof.
  pose proof (slow_rate_final_at_most_cpu0 e st).
  pose proof (fast_rate_at_least_cpu0 e (online_cpus e st)).
  unfold scan. split; [lia|]. intros. lia.
Qed.

Lemma slow_rate_below_fast_rate_witness :
  down_rate Scenario.uneven_env Scenario.uneven_state
    <= up_rate Scenario.uneven_env Scenario.uneven_state /\
  fast_rate (scan Scenario.uneven_env Scenario.uneven_state)
    < down_rate Scenario.uneven_env Scenario.uneven_state /\
  slow_rate_final Scenario.uneven_env Scenario.uneven_state
    <= up_rate Scenario.uneven_env Scenario.uneven_state.
Proof.
  assert (H1 : down_rate Scenario.uneven_env Scenario.uneven_state
               <= up_rate Scenario.uneven_env Scenario.uneven_state)
    by (vm_compute; discriminate).
  assert (H2 : fast_rate (scan Scenario.uneven_env Scenario.uneven_state)
               < down_rate Scenario.uneven_env Scenario.uneven_state)
    by (vm_compute; reflexivity).
  split; [exact H1|]. split; [exact H2|].
  exact (proj2 (slow_rate_below_fast_rate
                  Scenario.uneven_env Scenario.uneven_state) H1 H2).
Defined.

(** *** The online count *)

Lemma cpumask_weight_S n m :
  cpumask_weight (S n) m =
  (cpumask_weight n m + if cpumask_test_cpu n m then 1 else 0)%nat.
Proof.
  unfold cpumask_weight, for_each_cpu.
  rewrite seq_S, filter_app, length_app. simpl.
  destruct (cpumask_test_cpu n m); reflexivity.
Qed.

Lemma cpumask_weight_set n cpu m :
  cpumask_weight n (cpumask_set_cpu cpu m) =
  (cpumask_weight n m +
   if (cpu <? n)%nat && negb (cpumask_test_cpu cpu m) then 1 else 0)%nat.
Proof.
  induction n as [|n IH]; [reflexivity|].
  rewrite !cpumask_weight_S, IH, cpumask_test_set.
  destruct (Nat.eqb_spec cpu n) as [-> | Hne]; simpl.
  - rewrite Nat.ltb_irrefl. simpl.
    assert (Hlt : (n <? S n)%nat = true) by (apply Nat.ltb_lt; lia).
    rewrite Hlt. simpl. destruct (cpumask_test_cpu n m); simpl; lia.
  - assert (Heq : (cpu <? S n)%nat = (cpu <? n)%nat).
    { destruct (Nat.ltb_spec cpu n), (Nat.ltb_spec cpu (S n)); trivial; lia. }
    rewrite Heq. lia.
Qed.

Lemma cpumask_weight_clear n cpu m :
  (cpumask_weight n (cpumask_clear_cpu cpu m) +
   if (cpu <? n)%nat && cpumask_test_cpu cpu m then 1 else 0)%nat =
  cpumask_weight n m.
Proof.
  induction n as [|n IH]; [reflexivity|].
  rewrite !cpumask_weight_S, cpumask_test_clear, <- IH.
  destruct (Nat.eqb_spec cpu n) as [-> | Hne]; simpl.
  - rewrite Nat.ltb_irrefl. simpl.
    assert (Hlt : (n <? S n)%nat = true) by (apply Nat.ltb_lt; lia).
    rewrite Hlt. simpl. destruct (cpumask_test_cpu n m); simpl; lia.
  - assert (Heq : (cpu <? S n)%nat = (cpu <? n)%nat).
    { destruct (Nat.ltb_spec cpu n), (Nat.ltb_spec cpu (S n)); trivial; lia. }
    rewrite Heq. lia.
Qed.

Lemma cpumask_weight_le n m : (cpumask_weight n m <= n)%nat.
Proof.
  unfold cpumask_weight, for_each_cpu.
  pose proof (filter_length_le (fun cpu => cpumask_test_cpu cpu m) (seq 0 n)) as H.
  rewrite length_seq in H. exact H.
Qed.

Lemma num_online_cpu_up e cpu st :
  num_online_cpus e st <= num_online_cpus e (final (cpu_up e cpu) st)
    <= num_online_cpus e st + 1.
Proof.
  rewrite final_cpu_up. destruct (_ && _); [|lia].
  unfold num_online_cpus; simpl. rewrite cpumask_weight_set.
  destruct (_ && _); lia.
Qed.

Lemma num_online_cpu_down e cpu st :
  num_online_cpus e st - 1 <= num_online_cpus e (final (cpu_down e cpu) st)
    <= num_online_cpus e st.
Proof.
  rewrite final_cpu_down. destruct (cpu_online cpu st && _); [|lia].
  unfold num_online_cpus; simpl.
  pose proof (cpumask_weight_clear (nr_cpu_ids e) cpu (cpu_online_mask st)) as H.
  destruct (_ && _); lia.
Qed.

Lemma num_cpus_plain e st :
  Z.of_nat (nr_cpu_ids e) < 2147483648 ->
  num_cpus e st = num_online_cpus e st.
Proof.
  intros Hnr. unfold num_cpus, to_int, num_online_cpus.
  pose proof (cpumask_weight_le (nr_cpu_ids e) (cpu_online_mask st)).
  rewrite Z.mod_small by lia. lia.
Qed.

(** X4. A run of the worker never moves the online count out of the band
    the tunables set: the count afterwards is at most the larger of the
    count before and [max_cpus], and at least the smaller of the count
    before and [min_cpus] (for any number of CPU ids that fits an [int]). *)
Theorem worker_keeps_count_in_band e st :
  Z.of_nat (nr_cpu_ids e) < 2147483648 ->
  Z.min (num_online_cpus e st) (min_cpus (tunables st))
    <= num_online_cpus e (final (asmp_work_fn e) st)
    <= Z.max (num_online_cpus e st) (max_cpus (tunables st)).
Proof.
  intros Hnr.
  assert (Hq : forall ms s, num_online_cpus e (final (queue_delayed_work ms) s)
                            = num_online_cpus e s).
  { intros ms s. unfold num_online_cpus.
    rewrite online_mask_queue_delayed_work. reflexivity. }
  rewrite asmp_work_fn_final, Hq.
  destruct (upshift_test e st) eqn:Hu; [|destruct (downshift_test e st) eqn:Hd].
  - apply upshift_test_true in Hu as (_ & Hnum & _).
    rewrite (num_cpus_plain e st Hnr) in Hnum.
    pose proof (num_online_cpu_up e (upshift_target e st)
                  (set_cycle (cycle_incr st) st)) as H.
    change (num_online_cpus e (set_cycle (cycle_incr st) st))
      with (num_online_cpus e st) in H.
    change (num_online_cpus e (set_cycle 0 ?s)) with (num_online_cpus e s).
    lia.
  - apply downshift_test_true in Hd as (_ & _ & _ & Hnum & _).
    rewrite (num_cpus_plain e st Hnr) in Hnum.
    pose proof (num_online_cpu_down e (slow_cpu (scan e st))
                  (set_cycle (cycle_incr st) st)) as H.
    change (num_online_cpus e (set_cycle (cycle_incr st) st))
      with (num_online_cpus e st) in H.
    change (num_online_cpus e (set_cycle 0 ?s)) with (num_online_cpus e s).
    lia.
  - change (num_online_cpus e (set_cycle (cycle_incr st) st))
      with (num_online_cpus e st).
    lia.
Qed.

Lemma worker_keeps_count_in_band_witness :
  Z.of_nat (nr_cpu_ids Scenario.busy_env) < 2147483648 /\
  num_online_cpus Scenario.busy_env Scenario.busy_state = 2 /\
  2 <= num_online_cpus Scenario.busy_env
         (final (asmp_work_fn Scenario.busy_env) Scenario.busy_state) <= 4.
Proof.
  assert (Hnr : Z.of_nat (nr_cpu_ids Scenario.busy_env) < 2147483648)
    by (vm_compute; reflexivity).
  split; [exact Hnr|]. split; [reflexivity|].
  exact (worker_keeps_count_in_band
           Scenario.busy_env Scenario.busy_state Hnr).
Defined.

(** *** Hysteresis *)

Lemma asmp_work_fn_quiet e st :
  0 <= cycle st ->
  cycle st + 1 < to_uint (cycle_up (tunables st)) ->
  cycle st + 1 < to_uint (cycle_down (tunables st)) ->
  issued (asmp_work_fn e) st = [] /\
  cycle (final (asmp_work_fn e) st) = cycle st + 1 /\
  tunables (final (asmp_work_fn e) st) = tunables st.
Proof.
  intros H0 Hup Hdn.
  pose proof (to_uint_range (cycle_up (tunables st))) as Hr.
  assert (Hincr : cycle_incr st = cycle st + 1).
  { unfold cycle_incr. apply to_uint_small. lia. }
  assert (Hu : upshift_test e st = false).
  { destruct (upshift_test e st) eqn:Hu; trivial.
    apply upshift_test_true in Hu. lia. }
  assert (Hd : downshift_test e st = false).
  { destruct (downshift_test e st) eqn:Hd; trivial.
    apply downshift_test_true in Hd. lia. }
  split; [rewrite asmp_work_fn_issued, Hu, Hd; reflexivity|].
  split; [rewrite asmp_work_fn_cycle, Hu, Hd; exact Hincr|].
  destruct (asmp_work_fn_frame e st) as (c & m & ->).
  rewrite final_queue_delayed_work. destruct (asmp_work _); reflexivity.
Qed.

(** X5. Hysteresis: as long as the counter plus the number of runs stays
    below both [cycle_up] and [cycle_down], consecutive runs of the worker
    issue no hotplug request, whatever the frequencies, and each adds one
    to the counter.  In particular the first [min(cycle_up, cycle_down) - 1]
    runs after a change of topology (counter 0) are quiet. *)
Theorem quiet_until_cycle_threshold es : forall st,
  0 <= cycle st ->
  cycle st + Z.of_nat (length es) < to_uint (cycle_up (tunables st)) ->
  cycle st + Z.of_nat (length es) < to_uint (cycle_down (tunables st)) ->
  issued (run_cycles es) st = [] /\
  cycle (final (run_cycles es) st) = cycle st + Z.of_nat (length es).
Proof.
  unfold run_cycles.
  induction es as [|e es IH]; intros st H0 Hup Hdn.
  - simpl. split; [reflexivity|]. rewrite final_ret. lia.
  - cbn [for_each length] in *. rewrite issued_bind, final_bind.
    destruct (asmp_work_fn_quiet e st H0 ltac:(lia) ltac:(lia))
      as (Hi & Hc & Ht).
    destruct (IH (final (asmp_work_fn e) st)) as [Hi' Hc'];
      rewrite ?Hc, ?Ht; try lia.
    rewrite Hi, Hi', Hc', Hc. split; [reflexivity|lia].
Qed.

Lemma quiet_until_cycle_threshold_witness :
  cycle Scenario.started = 0 /\
  to_uint (cycle_up (tunables Scenario.started)) = 2 /\
  to_uint (cycle_down (tunables Scenario.started)) = 2 /\
  issued (run_cycles [Scenario.busy_env]) Scenario.started = [] /\
  cycle (final (run_cycles [Scenario.busy_env]) Scenario.started) = 1.
Proof.
  split; [reflexivity|]. split; [reflexivity|]. split; [reflexivity|].
  apply (quiet_until_cycle_threshold [Scenario.busy_env] Scenario.started);
    vm_compute; first [discriminate | reflexivity].
Defined.

(** *** Thresholds *)

(** X6. With the percentages within the 1..100 their attributes accept and
    a maximum frequency whose hundredfold fits an [unsigned int], the
    thresholds are the exact percentages of [max_rate], without
    wrap-around, and never exceed [max_rate]. *)
Theorem thresholds_are_percentages e st :
  1 <= cpufreq_up (tunables st) <= 100 ->
  1 <= cpufreq_down (tunables st) <= 100 ->
  max_rate e * 100 <= UINT_MAX ->
  up_rate e st = cpufreq_up (tunables st) * max_rate e / 100 /\
  down_rate e st = cpufreq_down (tunables st) * max_rate e / 100 /\
  up_rate e st <= max_rate e /\
  down_rate e st <= max_rate e.
Proof.
  intros Hup Hdn Hmax.
  assert (H0 : 0 <= max_rate e) by apply to_uint_range.
  assert (Hpct : forall p, 1 <= p <= 100 ->
            to_uint (to_uint p * max_rate e) / 100 = p * max_rate e / 100 /\
            p * max_rate e / 100 <= max_rate e).
  { intros p Hp. unfold UINT_MAX in Hmax.
    rewrite (to_uint_small p) by (unfold UINT_MAX; lia).
    rewrite to_uint_small by (unfold UINT_MAX; nia).
    split; [reflexivity|].
    apply Z.div_le_upper_bound; nia. }
  unfold up_rate, down_rate.
  destruct (Hpct _ Hup) as [-> ?], (Hpct _ Hdn) as [-> ?].
  repeat split; assumption.
Qed.

Lemma thresholds_are_percentages_witness :
  up_rate Scenario.busy_env Scenario.busy_state = 600 /\
  down_rate Scenario.busy_env Scenario.busy_state = 400 /\
  up_rate Scenario.busy_env Scenario.busy_state
    <= max_rate Scenario.busy_env.
Proof.
  destruct (thresholds_are_percentages Scenario.busy_env Scenario.busy_state)
    as (Hu & Hd & Hle & _).
  - vm_compute. split; discriminate.
  - vm_compute. split; discriminate.
  - vm_compute. discriminate.
  - split; [rewrite Hu; reflexivity|]. split; [rewrite Hd; reflexivity|].
    exact Hle.
Defined.

(** ** Loops over CPUs that issue hotplug requests *)

Lemma flat_map_cond_singleton {A B} (p : A -> bool) (f : A -> B) l :
  flat_map (fun a => if p a then [f a] else []) l = map f (filter p l).
Proof.
  induction l as [|a l IH]; simpl; [reflexivity|].
  destruct (p a); simpl; rewrite IH; reflexivity.
Qed.

Lemma NoDup_for_each_cpu nr m : NoDup (for_each_cpu nr m).
Proof. apply NoDup_filter, seq_NoDup. Qed.

Lemma in_for_each_cpu nr m c :
  In c (for_each_cpu nr m) <-> (c < nr)%nat /\ cpumask_test_cpu c m = true.
Proof. unfold for_each_cpu. rewrite filter_In, in_seq. intuition lia. Qed.

Lemma in_for_each_cpu_not nr m c :
  In c (for_each_cpu_not nr m) <-> (c < nr)%nat /\ cpumask_test_cpu c m = false.
Proof.
  unfold for_each_cpu_not. rewrite filter_In, in_seq, negb_true_iff.
  intuition lia.
Qed.

Section CpuLoop.

(** A loop body that, run for CPU [a], issues requests depending only on
    whether [a] is online, and changes at most the online bit of [a]. *)
Variable body : nat -> M unit.
Variable req : nat -> bool -> list event.

Hypothesis body_issued :
  forall a s, issued (body a) s = req a (cpu_online a s).

Hypothesis body_frame :
  forall a s, exists m,
    final (body a) s = set_cpu_online_mask m s /\
    forall c, c <> a -> cpumask_test_cpu c m = cpu_online c s.

Lemma cpu_loop_frame l : forall s,
  exists m,
    final (for_each l body) s = set_cpu_online_mask m s /\
    forall c, ~ In c l -> cpumask_test_cpu c m = cpu_online c s.
Proof.
  induction l as [|a l IH]; intros s; simpl.
  - exists (cpu_online_mask s). rewrite final_ret, set_cpu_online_mask_same.
    split; reflexivity.
  - rewrite final_bind.
    destruct (body_frame a s) as (m1 & -> & Hm1).
    destruct (IH (set_cpu_online_mask m1 s)) as (m2 & -> & Hm2).
    exists m2. split; [reflexivity|].
    intros c Hc. rewrite Hm2 by tauto.
    unfold cpu_online; simpl. apply Hm1. intros ->. apply Hc. left; reflexivity.
Qed.

Lemma cpu_loop_issued l : NoDup l -> forall s st,
  (forall c, In c l -> cpu_online c s = cpu_online c st) ->
  issued (for_each l body) s = flat_map (fun a => req a (cpu_online a st)) l.
Proof.
  induction 1 as [|a l Hnot Hnd IH]; intros s st Hagree; simpl.
  - reflexivity.
  - rewrite issued_bind, body_issued, Hagree by (left; reflexivity).
    f_equal. apply IH. intros c Hc.
    destruct (body_frame a s) as (m1 & -> & Hm1).
    unfold cpu_online at 1; simpl. rewrite Hm1 by (intros ->; contradiction).
    apply Hagree. right; exact Hc.
Qed.

(** What holds of a CPU's online bit right after its own turn still holds
    when the loop ends; [cpu_present_mask] is the same throughout. *)
Lemma cpu_loop_post (P : nat -> bool -> Prop) pm l :
  (forall a s, cpu_present_mask s = pm ->
               P a (cpu_online a (final (body a) s))) ->
  NoDup l -> forall s c, cpu_present_mask s = pm -> In c l ->
  P c (cpu_online c (final (for_each l body) s)).
Proof.
  intros Hpost. induction 1 as [|a l Hnot Hnd IH]; intros s c Hpm Hc.
  - destruct Hc.
  - simpl. rewrite final_bind.
    assert (Hpm' : cpu_present_mask (final (body a) s) = pm).
    { destruct (body_frame a s) as (m & -> & _). exact Hpm. }
    destruct Hc as [-> | Hc]; [|apply IH; assumption].
    destruct (cpu_loop_frame l (final (body c) s)) as (m & -> & Hm).
    unfold cpu_online at 1; simpl. rewrite Hm by exact Hnot.
    apply Hpost. exact Hpm.
Qed.

End CpuLoop.

Lemma cpu_down_change e a s :
  exists m,
    final (cpu_down e a) s = set_cpu_online_mask m s /\
    forall c, c <> a -> cpumask_test_cpu c m = cpu_online c s.
Proof.
  rewrite final_cpu_down. destruct (_ && _).
  - eexists. split; [reflexivity|]. intros c Hc.
    rewrite cpumask_test_clear.
    destruct (Nat.eqb_spec a c); [congruence | reflexivity].
  - exists (cpu_online_mask s). rewrite set_cpu_online_mask_same.
    split; reflexivity.
Qed.

Lemma cpu_up_change e a s :
  exists m,
    final (cpu_up e a) s = set_cpu_online_mask m s /\
    forall c, c <> a -> cpumask_test_cpu c m = cpu_online c s.
Proof.
  rewrite final_cpu_up. destruct (_ && _).
  - eexists. split; [reflexivity|]. intros c Hc.
    rewrite cpumask_test_set.
    destruct (Nat.eqb_spec a c); [congruence | reflexivity].
  - exists (cpu_online_mask s). rewrite set_cpu_online_mask_same.
    split; reflexivity.
Qed.

Lemma no_change s :
  exists m,
    s = set_cpu_online_mask m s /\
    forall c : nat, cpumask_test_cpu c m = cpu_online c s.
Proof.
  exists (cpu_online_mask s). rewrite set_cpu_online_mask_same.
  split; reflexivity.
Qed.

(** ** Suspend *)

Lemma suspend_body_requests e a s :
  issued (suspend_body e a) s =
  if (0 <? a)%nat && cpu_online a s then [CpuDown a] else [].
Proof.
  unfold suspend_body. autorewrite with run.
  destruct ((0 <? a)%nat && cpu_online a s); simpl; autorewrite with run;
    reflexivity.
Qed.

Lemma suspend_body_change e a s :
  exists m,
    final (suspend_body e a) s = set_cpu_online_mask m s /\
    forall c, c <> a -> cpumask_test_cpu c m = cpu_online c s.
Proof.
  unfold suspend_body. autorewrite with run.
  destruct ((0 <? a)%nat && cpu_online a s); simpl; autorewrite with run.
  - apply cpu_down_change.
  - destruct (no_change s) as (m & Hm & Hc). exists m. split; auto.
Qed.

Lemma suspend_body_offline e a s :
  arch_cpu_down_err e a = 0 -> (0 < a)%nat ->
  cpu_online a (final (suspend_body e a) s) = false.
Proof.
  intros Herr Ha. unfold suspend_body. autorewrite with run.
  apply Nat.ltb_lt in Ha. rewrite Ha. simpl.
  destruct (cpu_online a s) eqn:Hon; simpl; autorewrite with run;
    [|exact Hon].
  rewrite final_cpu_down, Hon, Herr. simpl.
  unfold cpu_online; simpl. rewrite cpumask_test_clear, Nat.eqb_refl.
  reflexivity.
Qed.

Lemma asmp_suspend_run e st :
  enabled st <> 0 ->
  asmp_suspend e st =
  (when (negb (scroff_single_core (tunables st) =? 0))
     (for_each (present_cpus e st) (suspend_body e)) ;;
   cancel_delayed_work_sync) st.
Proof.
  intros Hen. unfold asmp_suspend, bind at 1, get.
  apply Z.eqb_neq in Hen. rewrite Hen.
  destruct (bind _ _ st) as [[u s'] l]. reflexivity.
Qed.

(** X7. While enabled, the suspend handler requests the take-offline of
    exactly the present, online CPUs other than CPU 0, as they stood at
    entry, each once and in ascending id order, provided
    [scroff_single_core] is set, and of none otherwise; in both cases it
    ends with no work pending. *)
Theorem suspend_requests e st :
  enabled st <> 0 ->
  issued (asmp_suspend e) st =
    (if scroff_single_core (tunables st) =? 0 then []
     else map CpuDown (suspend_targets e st)) /\
  asmp_work (final (asmp_suspend e) st) = None.
Proof.
  intros Hen. unfold issued, final. rewrite (asmp_suspend_run e st Hen).
  fold (issued (when (negb (scroff_single_core (tunables st) =? 0))
                  (for_each (present_cpus e st) (suspend_body e)) ;;
                cancel_delayed_work_sync) st).
  fold (final (when (negb (scroff_single_core (tunables st) =? 0))
                 (for_each (present_cpus e st) (suspend_body e)) ;;
               cancel_delayed_work_sync) st).
  unfold cancel_delayed_work_sync. autorewrite with run.
  split; [|reflexivity].
  destruct (scroff_single_core (tunables st) =? 0); simpl;
    [apply issued_ret|].
  rewrite (cpu_loop_issued (suspend_body e)
             (fun a b => if (0 <? a)%nat && b then [CpuDown a] else [])
             (suspend_body_requests e) (suspend_body_change e)
             (present_cpus e st) (NoDup_for_each_cpu _ _) st st)
    by reflexivity.
  apply flat_map_cond_singleton.
Qed.

Lemma suspend_requests_witness :
  enabled Scenario.idle_state <> 0 /\
  issued (asmp_suspend Scenario.idle_env) Scenario.idle_state
  = [CpuDown 1; CpuDown 2; CpuDown 3].
Proof.
  assert (Hen : enabled Scenario.idle_state <> 0) by discriminate.
  split; [exact Hen|].
  exact (proj1 (suspend_requests Scenario.idle_env Scenario.idle_state Hen)).
Defined.

Lemma filter_seq_only_zero (p : nat -> bool) n :
  (0 < n)%nat -> (forall c, (c < n)%nat -> p c = (c =? 0)%nat) ->
  filter p (seq 0 n) = [0%nat].
Proof.
  induction n as [|n IH]; intros Hn Hp; [lia|].
  rewrite seq_S, filter_app. simpl.
  destruct n as [|n].
  - simpl. rewrite Hp by lia. reflexivity.
  - rewrite IH by (try lia; intros c Hc; apply Hp; lia).
    rewrite Hp by lia. reflexivity.
Qed.

(** X8. While enabled with [scroff_single_core] set, on a machine that
    carries every take-offline request out, where CPU 0 is online and every
    online CPU is present, the suspend handler leaves CPU 0 as the only
    online CPU. *)
Theorem suspend_leaves_reference_cpu_alone e st :
  enabled st <> 0 ->
  scroff_single_core (tunables st) <> 0 ->
  (forall c, arch_cpu_down_err e c = 0) ->
  (0 < nr_cpu_ids e)%nat ->
  cpu_online 0 st = true ->
  (forall c, (c < nr_cpu_ids e)%nat -> cpu_online c st = true ->
             cpu_present c st = true) ->
  online_cpus e (final (asmp_suspend e) st) = [0%nat].
Proof.
  intros Hen Hsc Herr Hnr H0 Hpres.
  apply filter_seq_only_zero; [exact Hnr|]. intros c Hc.
  fold (cpu_online c (final (asmp_suspend e) st)).
  destruct (Nat.eqb_spec c 0) as [-> | Hne].
  { rewrite asmp_suspend_cpu0. exact H0. }
  unfold final. rewrite (asmp_suspend_run e st Hen).
  fold (final (when (negb (scroff_single_core (tunables st) =? 0))
                 (for_each (present_cpus e st) (suspend_body e)) ;;
               cancel_delayed_work_sync) st).
  unfold cancel_delayed_work_sync. autorewrite with run.
  apply Z.eqb_neq in Hsc. rewrite Hsc. simpl.
  match goal with
  | |- cpu_online c (set_asmp_work None ?s) = _ =>
      change (cpu_online c (set_asmp_work None s)) with (cpu_online c s)
  end.
  destruct (cpu_present c st) eqn:Hp.
  - apply (cpu_loop_post (suspend_body e) (suspend_body_change e)
             (fun a b => (0 < a)%nat -> b = false) (cpu_present_mask st));
      [ intros a s _ Ha; apply suspend_body_offline; [apply Herr | exact Ha]
      | apply NoDup_for_each_cpu
      | reflexivity
      | apply in_for_each_cpu; split; [exact Hc | exact Hp]
      | lia ].
  - destruct (cpu_loop_frame (suspend_body e) (suspend_body_change e)
                (present_cpus e st) st) as (m & -> & Hm).
    unfold cpu_online at 1; simpl. rewrite Hm.
    + destruct (cpu_online c st) eqn:Hon; trivial.
      rewrite (Hpres c Hc Hon) in Hp. discriminate.
    + intros Hin. apply in_for_each_cpu in Hin as [_ Hin].
      unfold cpu_present in Hp. congruence.
Qed.

Lemma suspend_leaves_reference_cpu_alone_witness :
  online_cpus Scenario.idle_env Scenario.idle_state = [0; 1; 2; 3]%nat /\
  online_cpus Scenario.idle_env
    (final (asmp_suspend Scenario.idle_env) Scenario.idle_state) = [0%nat].
Proof.
  split; [reflexivity|].
  apply (suspend_leaves_reference_cpu_alone
           Scenario.idle_env Scenario.idle_state).
  - discriminate.
  - discriminate.
  - intros c. reflexivity.
  - vm_compute. lia.
  - reflexivity.
  - intros c Hc _.
    change (nr_cpu_ids Scenario.idle_env) with 4%nat in Hc.
    destruct c as [|[|[|[|c]]]]; try reflexivity. lia.
Defined.

(** ** Resume, below the limit *)

Lemma resume_body_requests e a s :
  issued (resume_body e a) s =
  if negb (cpu_online a s) then [CpuUp a] else [].
Proof.
  unfold resume_body. autorewrite with run.
  destruct (negb (cpu_online a s)); simpl; autorewrite with run; reflexivity.
Qed.

Lemma resume_body_change e a s :
  exists m,
    final (resume_body e a) s = set_cpu_online_mask m s /\
    forall c, c <> a -> cpumask_test_cpu c m = cpu_online c s.
Proof.
  unfold resume_body. autorewrite with run.
  destruct (negb (cpu_online a s)); simpl; autorewrite with run.
  - apply cpu_up_change.
  - destruct (no_change s) as (m & Hm & Hc). exists m. split; auto.
Qed.

Lemma bind_get {B} (k : kstate -> M B) s : bind get k s = k s s.
Proof. unfold bind, get. destruct (k s s) as [[b s2] l2]. reflexivity. Qed.

Lemma bind_assoc {A B C} (m : M A) (f : A -> M B) (k : B -> M C) s :
  bind (bind m f) k s = bind m (fun a => bind (f a) k) s.
Proof.
  unfold bind. destruct (m s) as [[a s1] l1].
  destruct (f a s1) as [[b s2] l2]. destruct (k b s2) as [[c s3] l3].
  rewrite app_assoc. reflexivity.
Qed.

Lemma bind_ext_at {A B} (m : M A) (k1 k2 : A -> M B) s :
  (forall a, k1 a (final m s) = k2 a (final m s)) ->
  bind m k1 s = bind m k2 s.
Proof.
  unfold bind, final. destruct (m s) as [[a s1] l1]. simpl.
  intros H. rewrite H. reflexivity.
Qed.

(** As long as the count read at entry is below [max_cpus], the loop of
    the resume handler runs its body for every present CPU. *)
Lemma resume_loop_below_limit e n l : forall s,
  n < to_uint (max_cpus (tunables s)) ->
  resume_loop e n l s = for_each l (resume_body e) s.
Proof.
  induction l as [|a l IH]; intros s Hn; [reflexivity|].
  cbn [resume_loop for_each]. unfold resume_body.
  rewrite bind_assoc, !bind_get.
  pose proof Hn as Hgt. apply Z.leb_gt in Hgt. rewrite Hgt.
  apply bind_ext_at. intros _. apply IH.
  assert (Ht : tunables (final (resume_body e a) s) = tunables s).
  { destruct (resume_body_change e a s) as (m & -> & _). reflexivity. }
  unfold resume_body in Ht. unfold final in Ht. rewrite bind_get in Ht.
  fold (final (when (negb (cpu_online a s)) (_ <- cpu_up e a ;; ret tt)) s)
    in Ht.
  rewrite Ht. exact Hn.
Qed.

Lemma asmp_resume_run e st :
  enabled st <> 0 ->
  asmp_resume e st =
  (when (negb (scroff_single_core (tunables st) =? 0))
     (resume_loop e (to_uint (num_online_cpus e st)) (present_cpus e st)) ;;
   st' <- get ;;
   queue_delayed_work (delay (tunables st'))) st.
Proof.
  intros Hen. unfold asmp_resume, bind at 1, get.
  apply Z.eqb_neq in Hen. rewrite Hen.
  destruct (bind _ _ st) as [[u s'] l]. reflexivity.
Qed.

Lemma resume_loop_frame e n l s :
  exists m, final (resume_loop e n l) s = set_cpu_online_mask m s.
Proof.
  destruct (Z.leb_spec (to_uint (max_cpus (tunables s))) n) as [Hle | Hlt].
  - destruct (resume_loop_at_limit e n l s Hle) as [_ ->].
    destruct (no_change s) as (m & Hm & _). exists m. exact Hm.
  - unfold final. rewrite (resume_loop_below_limit e n l s Hlt).
    destruct (cpu_loop_frame (resume_body e) (resume_body_change e) l s)
      as (m & Hm & _).
    exists m. exact Hm.
Qed.

(** X9. While enabled with [scroff_single_core] set and a live workqueue
    to queue the worker on, the resume handler compares the online count
    read at entry with [max_cpus] (in [unsigned int]): if the count has
    reached it, no request is issued; otherwise a bring-online request is
    issued for every present CPU that was offline at entry, each once and
    in ascending id order.  It never issues a take-offline request, and it
    ends with the worker queued: after [tunables.delay] ms, or as it
    already was if a run was pending. *)
Theorem resume_requests e st :
  enabled st <> 0 ->
  scroff_single_core (tunables st) <> 0 ->
  asmp_wq st = WqLive ->
  issued (asmp_resume e) st =
    (if to_uint (max_cpus (tunables st)) <=? to_uint (num_online_cpus e st)
     then []
     else map CpuUp (resume_targets e st)) /\
  asmp_work (final (asmp_resume e) st) =
    Some (match asmp_work st with
          | Some ms => ms
          | None => delay (tunables st)
          end).
Proof.
  intros Hen Hsc _. unfold issued, final. rewrite (asmp_resume_run e st Hen).
  fold (issued
          (when (negb (scroff_single_core (tunables st) =? 0))
             (resume_loop e (to_uint (num_online_cpus e st))
                (present_cpus e st)) ;;
           st' <- get ;; queue_delayed_work (delay (tunables st'))) st).
  fold (final
          (when (negb (scroff_single_core (tunables st) =? 0))
             (resume_loop e (to_uint (num_online_cpus e st))
                (present_cpus e st)) ;;
           st' <- get ;; queue_delayed_work (delay (tunables st'))) st).
  autorewrite with run.
  apply Z.eqb_neq in Hsc. rewrite Hsc. simpl. split.
  - destruct (Z.leb_spec (to_uint (max_cpus (tunables st)))
                (to_uint (num_online_cpus e st))) as [Hle | Hlt].
    + apply (resume_loop_at_limit e _ (present_cpus e st) st Hle).
    + unfold issued. rewrite (resume_loop_below_limit e _ _ st Hlt).
      fold (issued (for_each (present_cpus e st) (resume_body e)) st).
      rewrite (cpu_loop_issued (resume_body e)
                 (fun a b => if negb b then [CpuUp a] else [])
                 (resume_body_requests e) (resume_body_change e)
                 (present_cpus e st) (NoDup_for_each_cpu _ _) st st)
        by reflexivity.
      apply flat_map_cond_singleton.
  - destruct (resume_loop_frame e (to_uint (num_online_cpus e st))
                (present_cpus e st) st) as (m & ->).
    rewrite final_queue_delayed_work.
    change (asmp_work (set_cpu_online_mask m st)) with (asmp_work st).
    change (tunables (set_cpu_online_mask m st)) with (tunables st).
    destruct (asmp_work st) eqn:Hw; [exact Hw | reflexivity].
Qed.

Lemma resume_requests_witness :
  enabled Scenario.busy_state <> 0 /\
  scroff_single_core (tunables Scenario.busy_state) <> 0 /\
  issued (asmp_resume Scenario.busy_env) Scenario.busy_state
  = [CpuUp 2; CpuUp 3] /\
  asmp_work (final (asmp_resume Scenario.busy_env) Scenario.busy_state)
  = Some 50.
Proof.
  assert (Hen : enabled Scenario.busy_state <> 0) by discriminate.
  assert (Hsc : scroff_single_core (tunables Scenario.busy_state) <> 0)
    by discriminate.
  split; [exact Hen|]. split; [exact Hsc|].
  exact (resume_requests Scenario.busy_env Scenario.busy_state Hen Hsc
           eq_refl).
Defined.

(** ** The notifier *)

(** X10. The state notifier callback always answers [NOTIFY_OK].  While
    the module is disabled it changes nothing and issues no request,
    whatever the event, and so do the suspend and resume handlers; while
    enabled, it has the effect of the resume handler on
    [STATE_NOTIFIER_ACTIVE], of the suspend handler on
    [STATE_NOTIFIER_SUSPEND], and none on any other event. *)
Theorem notifier_dispatch e ev st :
  result (state_notifier_callback e ev) st = NOTIFY_OK /\
  (enabled st = 0 ->
   final (state_notifier_callback e ev) st = st /\
   issued (state_notifier_callback e ev) st = [] /\
   asmp_suspend e st = (tt, st, []) /\
   asmp_resume e st = (tt, st, [])) /\
  (enabled st <> 0 ->
   let handler :=
     match ev with
     | STATE_NOTIFIER_ACTIVE => asmp_resume e
     | STATE_NOTIFIER_SUSPEND => asmp_suspend e
     | STATE_NOTIFIER_OTHER => ret tt
     end in
   final (state_notifier_callback e ev) st = final handler st /\
   issued (state_notifier_callback e ev) st = issued handler st).
Proof.
  unfold state_notifier_callback.
  split; [|split].
  - rewrite result_bind, result_get, final_get.
    destruct (enabled st =? 0); [reflexivity|].
    rewrite result_bind. reflexivity.
  - intros Hen. unfold final, issued, asmp_suspend, asmp_resume.
    rewrite !bind_get, Hen. simpl. repeat split.
  - intros Hen. apply Z.eqb_neq in Hen.
    unfold final at 1, issued at 1. rewrite bind_get, Hen.
    set (handler := match ev with
                    | STATE_NOTIFIER_ACTIVE => asmp_resume e
                    | STATE_NOTIFIER_SUSPEND => asmp_suspend e
                    | STATE_NOTIFIER_OTHER => ret tt
                    end).
    fold (final (handler ;; ret NOTIFY_OK) st).
    fold (issued (handler ;; ret NOTIFY_OK) st).
    autorewrite with run. split; reflexivity.
Qed.

Lemma notifier_dispatch_witness :
  enabled Scenario.idle_state <> 0 /\
  enabled Scenario.loaded = 0 /\
  issued (state_notifier_callback Scenario.idle_env STATE_NOTIFIER_SUSPEND)
    Scenario.idle_state = [CpuDown 1; CpuDown 2; CpuDown 3] /\
  final (state_notifier_callback Scenario.idle_env STATE_NOTIFIER_SUSPEND)
    Scenario.loaded = Scenario.loaded.
Proof.
  assert (Hen : enabled Scenario.idle_state <> 0) by discriminate.
  assert (Hdis : enabled Scenario.loaded = 0) by reflexivity.
  split; [exact Hen|]. split; [exact Hdis|]. split.
  - exact (proj2 (proj2 (proj2 (notifier_dispatch Scenario.idle_env
             STATE_NOTIFIER_SUSPEND Scenario.idle_state)) Hen)).
  - exact (proj1 (proj1 (proj2 (notifier_dispatch Scenario.idle_env
             STATE_NOTIFIER_SUSPEND Scenario.loaded)) Hdis)).
Defined.

(** ** Start and stop *)

(** X11. [asmp_hotplug_start] is all or nothing.  It returns 0 exactly
    when the workqueue is allocated and the notifier registers; then the
    workqueue is live, the notifier is on the chain and the first run of
    the worker is queued after 30000 ms.  Otherwise no live workqueue is
    left, the notifier registration and the pending work are as before.
    In either case no hotplug request is issued and the CPU masks, the
    tunables and [enabled] are untouched. *)
Theorem start_all_or_nothing e st :
  (result (asmp_hotplug_start e) st = 0 <->
   alloc_workqueue_ok e = true /\ state_register_client_ret e = 0) /\
  (result (asmp_hotplug_start e) st = 0 ->
   asmp_wq (final (asmp_hotplug_start e) st) = WqLive /\
   notifier_registered (final (asmp_hotplug_start e) st) = true /\
   asmp_work (final (asmp_hotplug_start e) st) = Some HOTPLUG_INIT_DELAY) /\
  (result (asmp_hotplug_start e) st <> 0 ->
   asmp_wq (final (asmp_hotplug_start e) st) <> WqLive /\
   notifier_registered (final (asmp_hotplug_start e) st)
     = notifier_registered st /\
   asmp_work (final (asmp_hotplug_start e) st) = asmp_work st) /\
  issued (asmp_hotplug_start e) st = [] /\
  cpu_online_mask (final (asmp_hotplug_start e) st) = cpu_online_mask st /\
  cpu_present_mask (final (asmp_hotplug_start e) st) = cpu_present_mask st /\
  tunables (final (asmp_hotplug_start e) st) = tunables st /\
  enabled (final (asmp_hotplug_start e) st) = enabled st.
Proof.
  unfold asmp_hotplug_start, INIT_DELAYED_WORK.
  destruct (alloc_workqueue_ok e).
  - destruct (Z.eqb_spec (state_register_client_ret e) 0) as [Hr | Hr].
    + autorewrite with run. rewrite Hr.
      repeat split; try reflexivity; try tauto; try discriminate;
        intros H; contradiction.
    + autorewrite with run.
      repeat split; try reflexivity; try tauto; try discriminate;
        intros [_ H]; contradiction.
  - autorewrite with run.
    repeat split; try reflexivity; try discriminate;
      intros [H _]; discriminate.
Qed.

Lemma start_all_or_nothing_witness :
  result (asmp_hotplug_start Scenario.busy_env) Scenario.loaded = 0 /\
  asmp_work (final (asmp_hotplug_start Scenario.busy_env) Scenario.loaded)
  = Some 30000 /\
  result (asmp_hotplug_start Scenario.no_notifier_env) Scenario.loaded <> 0 /\
  asmp_wq (final (asmp_hotplug_start Scenario.no_notifier_env)
             Scenario.loaded) <> WqLive.
Proof.
  assert (H1 : result (asmp_hotplug_start Scenario.busy_env) Scenario.loaded
               = 0) by reflexivity.
  assert (H2 : result (asmp_hotplug_start Scenario.no_notifier_env)
                 Scenario.loaded <> 0) by discriminate.
  destruct (start_all_or_nothing Scenario.busy_env Scenario.loaded)
    as (_ & Hok & _).
  destruct (start_all_or_nothing Scenario.no_notifier_env Scenario.loaded)
    as (_ & _ & Hko & _).
  split; [exact H1|]. split; [apply (Hok H1)|]. split; [exact H2|].
  apply (Hko H2).
Defined.

Lemma stop_body_requests e a s :
  issued (stop_body e a) s = if negb (a =? 0)%nat then [CpuUp a] else [].
Proof.
  unfold stop_body. destruct (a =? 0)%nat; simpl; autorewrite with run;
    reflexivity.
Qed.

Lemma stop_body_change e a s :
  exists m,
    final (stop_body e a) s = set_cpu_online_mask m s /\
    forall c, c <> a -> cpumask_test_cpu c m = cpu_online c s.
Proof.
  unfold stop_body. destruct (a =? 0)%nat; autorewrite with run.
  - destruct (no_change s) as (m & Hm & Hc). exists m. split; auto.
  - apply cpu_up_change.
Qed.

Lemma stop_body_online e a s pm :
  cpu_present_mask s = pm ->
  arch_cpu_up_err e a = 0 -> a <> 0%nat -> (a < nr_cpu_ids e)%nat ->
  cpumask_test_cpu a pm = true ->
  cpu_online a (final (stop_body e a) s) = true.
Proof.
  intros Hpm Herr Ha Hnr Hp. unfold stop_body.
  apply Nat.eqb_neq in Ha. rewrite Ha. autorewrite with run.
  rewrite final_cpu_up. unfold cpu_possible, cpu_present.
  apply Nat.ltb_lt in Hnr. rewrite Hnr, Hpm, Hp, Herr. simpl.
  destruct (cpu_online a s) eqn:Hon; simpl; [exact Hon|].
  unfold cpu_online; simpl. rewrite cpumask_test_set, Nat.eqb_refl.
  reflexivity.
Qed.

Lemma asmp_hotplug_stop_final e st :
  final (asmp_hotplug_stop e) st =
  final (for_each (for_each_cpu_not (nr_cpu_ids e) (cpu_online_mask st))
           (stop_body e))
    (set_asmp_wq WqDestroyed
       (set_notifier_registered false (set_asmp_work None st))).
Proof.
  unfold asmp_hotplug_stop, cancel_delayed_work_sync.
  autorewrite with run. reflexivity.
Qed.

Lemma NoDup_for_each_cpu_not nr m : NoDup (for_each_cpu_not nr m).
Proof. apply NoDup_filter, seq_NoDup. Qed.

(** X12. Called with a live workqueue (the function flushes and destroys
    [asmp_wq] without testing it), [asmp_hotplug_stop] issues a
    bring-online request for every CPU id that is not online at entry
    except 0, each once, in ascending id order, and nothing else; it ends
    with no work pending, the notifier off the chain and the workqueue
    destroyed.  CPU 0 is skipped: whether it is online is as before. *)
Theorem stop_requests e st :
  asmp_wq st = WqLive ->
  issued (asmp_hotplug_stop e) st = map CpuUp (stop_targets e st) /\
  asmp_work (final (asmp_hotplug_stop e) st) = None /\
  notifier_registered (final (asmp_hotplug_stop e) st) = false /\
  asmp_wq (final (asmp_hotplug_stop e) st) = WqDestroyed /\
  cpu_online 0 (final (asmp_hotplug_stop e) st) = cpu_online 0 st.
Proof.
  intros _. split.
  { unfold asmp_hotplug_stop, cancel_delayed_work_sync.
    autorewrite with run. simpl.
    rewrite (cpu_loop_issued (stop_body e)
               (fun a _ => if negb (a =? 0)%nat then [CpuUp a] else [])
               (stop_body_requests e) (stop_body_change e)
               _ (NoDup_for_each_cpu_not _ _) _ st)
      by reflexivity.
    apply flat_map_cond_singleton. }
  rewrite asmp_hotplug_stop_final.
  destruct (cpu_loop_frame (stop_body e) (stop_body_change e)
              (for_each_cpu_not (nr_cpu_ids e) (cpu_online_mask st))
              (set_asmp_wq WqDestroyed
                 (set_notifier_registered false (set_asmp_work None st))))
    as (m & Hm & Hother).
  split; [rewrite Hm; reflexivity|]. split; [rewrite Hm; reflexivity|].
  split; [rewrite Hm; reflexivity|].
  apply (for_each_final (fun s => cpu_online 0 s = cpu_online 0 st));
    [|reflexivity].
  intros a s Hs. unfold stop_body.
  destruct (Nat.eqb_spec a 0) as [-> | Hne]; [exact Hs|].
  autorewrite with run. rewrite cpu0_after_cpu_up by (left; exact Hne).
  exact Hs.
Qed.

Lemma stop_requests_witness :
  asmp_wq Scenario.started = WqLive /\
  issued (asmp_hotplug_stop Scenario.busy_env) Scenario.started
  = [CpuUp 2; CpuUp 3] /\
  asmp_work (final (asmp_hotplug_stop Scenario.busy_env) Scenario.started)
  = None.
Proof.
  assert (Hwq : asmp_wq Scenario.started = WqLive) by reflexivity.
  destruct (stop_requests Scenario.busy_env Scenario.started Hwq)
    as (Hi & Hw & _).
  split; [exact Hwq|]. split; [exact Hi | exact Hw].
Defined.

Lemma stop_online_present e st c :
  (forall a, arch_cpu_up_err e a = 0) ->
  (0 < c < nr_cpu_ids e)%nat ->
  cpu_present c st = true ->
  cpu_online c (final (asmp_hotplug_stop e) st) = true.
Proof.
  intros Herr Hc Hp. rewrite asmp_hotplug_stop_final.
  set (s0 := set_asmp_wq WqDestroyed
               (set_notifier_registered false (set_asmp_work None st))).
  destruct (cpu_online c st) eqn:Hon.
  - destruct (cpu_loop_frame (stop_body e) (stop_body_change e)
                (for_each_cpu_not (nr_cpu_ids e) (cpu_online_mask st)) s0)
      as (m & -> & Hm).
    unfold cpu_online at 1; simpl. rewrite Hm; [exact Hon|].
    intros Hin. apply in_for_each_cpu_not in Hin as [_ Hin].
    unfold cpu_online in Hon. congruence.
  - apply (cpu_loop_post (stop_body e) (stop_body_change e)
             (fun a b => a = c -> b = true) (cpu_present_mask st));
      [ | apply NoDup_for_each_cpu_not | reflexivity | | reflexivity ].
    + intros a s Hpm ->.
      apply (stop_body_online e c s (cpu_present_mask st) Hpm);
        [apply Herr | lia | lia | exact Hp].
    + apply in_for_each_cpu_not. split; [lia | exact Hon].
Qed.

(** X13. Called with a live workqueue on a machine that carries every
    bring-online request out, [asmp_hotplug_stop] leaves every present CPU
    other than CPU 0 online, whatever was online before. *)
Theorem stop_restores_present_cpus e st c :
  asmp_wq st = WqLive ->
  (forall a, arch_cpu_up_err e a = 0) ->
  (0 < c < nr_cpu_ids e)%nat ->
  cpu_present c st = true ->
  cpu_online c (final (asmp_hotplug_stop e) st) = true.
Proof. intros _. apply stop_online_present. Qed.

Lemma stop_restores_present_cpus_witness :
  cpu_online 2 Scenario.started = false /\
  cpu_online 2 (final (asmp_hotplug_stop Scenario.busy_env) Scenario.started)
  = true.
Proof.
  split; [reflexivity|].
  apply (stop_restores_present_cpus Scenario.busy_env Scenario.started 2).
  - reflexivity.
  - intros a. reflexivity.
  - vm_compute. lia.
  - reflexivity.
Defined.

(** ** The [enabled] attribute *)

Lemma enabled_asmp_hotplug_start e st :
  enabled (final (asmp_hotplug_start e) st) = enabled st.
Proof.
  unfold asmp_hotplug_start, INIT_DELAYED_WORK.
  destruct (alloc_workqueue_ok e); [|reflexivity].
  destruct (state_register_client_ret e =? 0); autorewrite with run;
    reflexivity.
Qed.

(** X14. A write to [enabled] is accepted only if it parses, is 0 or 1 and
    differs from the current value; an accepted write returns [count] and
    sets [enabled] to the value written (for a write of 0, which runs the
    stop path, given a live workqueue).  Every other write returns
    [-EINVAL], changes nothing and issues no hotplug request; in
    particular writing the value [enabled] already has is an error. *)
Theorem store_enabled_accepts_only_a_toggle e parsed count st :
  match parsed with
  | Some val =>
      if (0 <=? val) && (val <=? 1) && negb (val =? enabled st) then
        (val = 0 -> asmp_wq st = WqLive) ->
        result (store_enabled e parsed count) st = count /\
        enabled (final (store_enabled e parsed count) st) = val
      else store_enabled e parsed count st = (- EINVAL, st, [])
  | None => store_enabled e parsed count st = (- EINVAL, st, [])
  end.
Proof.
  unfold store_enabled. destruct parsed as [val|]; [|rewrite bind_get; reflexivity].
  destruct (Z.leb_spec 0 val) as [H0 | H0]; simpl.
  - destruct (Z.leb_spec val 1) as [H1 | H1]; simpl.
    + destruct (Z.eqb_spec val (enabled st)) as [He | He]; simpl.
      * rewrite bind_get.
        destruct (Z.ltb_spec val 0); [lia|].
        destruct (Z.ltb_spec 1 val); [lia|]. simpl.
        apply Z.eqb_eq in He. rewrite He. reflexivity.
      * intros _. autorewrite with run.
        destruct (Z.ltb_spec val 0); [lia|].
        destruct (Z.ltb_spec 1 val); [lia|]. simpl.
        apply Z.eqb_neq in He. rewrite He. autorewrite with run.
        split; [reflexivity|].
        assert (val = 0 \/ val = 1) as [-> | ->] by lia; simpl.
        -- pose proof (asmp_hotplug_stop_final e (set_enabled 0 st)) as Hs.
           rewrite Hs.
           destruct (cpu_loop_frame (stop_body e) (stop_body_change e)
             (for_each_cpu_not (nr_cpu_ids e)
                (cpu_online_mask (set_enabled 0 st)))
             (set_asmp_wq WqDestroyed
                (set_notifier_registered false
                   (set_asmp_work None (set_enabled 0 st)))))
             as (m & -> & _).
           reflexivity.
        -- autorewrite with run.
           apply enabled_asmp_hotplug_start.
    + rewrite bind_get.
      destruct (Z.ltb_spec 1 val); [|lia].
      rewrite orb_true_r. reflexivity.
  - rewrite bind_get. destruct (Z.ltb_spec val 0); [|lia]. reflexivity.
Qed.

Lemma store_enabled_accepts_only_a_toggle_witness :
  asmp_wq Scenario.started = WqLive /\
  result (store_enabled Scenario.busy_env (Some 0) 2) Scenario.started = 2 /\
  enabled (final (store_enabled Scenario.busy_env (Some 0) 2)
             Scenario.started) = 0 /\
  store_enabled Scenario.busy_env (Some 1) 2 Scenario.started
  = (- EINVAL, Scenario.started, []).
Proof.
  assert (Hwq : asmp_wq Scenario.started = WqLive) by reflexivity.
  split; [exact Hwq|].
  pose proof (store_enabled_accepts_only_a_toggle
                Scenario.busy_env (Some 0) 2 Scenario.started) as H0.
  pose proof (store_enabled_accepts_only_a_toggle
                Scenario.busy_env (Some 1) 2 Scenario.started) as H1.
  cbv beta iota in H0, H1.
  change ((0 <=? 0) && (0 <=? 1) && negb (0 =? enabled Scenario.started))
    with true in H0.
  change ((0 <=? 1) && (1 <=? 1) && negb (1 =? enabled Scenario.started))
    with false in H1.
  cbv iota in H0, H1.
  destruct (H0 (fun _ => Hwq)) as [Hr He].
  split; [exact Hr|]. split; [exact He | exact H1].
Defined.

(** ** The tunable attributes *)

Lemma store_one_run a parsed count st :
  store_one a parsed count st =
  match parsed with
  | Some val =>
      if (down_limit a (tunables st) <=? val) &&
         (val <=? up_limit a (tunables st))
      then (count, set_tunables (attr_set a val (tunables st)) st, [])
      else (- EINVAL, st, [])
  | None => (- EINVAL, st, [])
  end.
Proof.
  unfold store_one. rewrite bind_get. destruct parsed as [val|]; [|reflexivity].
  destruct (Z.ltb_spec val (down_limit a (tunables st)));
    destruct (Z.leb_spec (down_limit a (tunables st)) val); try lia;
    simpl; [reflexivity|].
  destruct (Z.ltb_spec (up_limit a (tunables st)) val);
    destruct (Z.leb_spec val (up_limit a (tunables st))); try lia;
    reflexivity.
Qed.

Lemma store_one_keeps_range a parsed count st :
  tunables_in_range (tunables st) ->
  tunables_in_range (tunables (final (store_one a parsed count) st)).
Proof.
  intros Hr. unfold final. rewrite store_one_run.
  destruct parsed as [val|]; [|exact Hr].
  destruct (Z.leb_spec (down_limit a (tunables st)) val) as [Hd | Hd];
    simpl; [|exact Hr].
  destruct (Z.leb_spec val (up_limit a (tunables st))) as [Hu | Hu];
    simpl; [|exact Hr].
  unfold tunables_in_range in *.
  destruct a; simpl in *; lia.
Qed.

(** X15. Writes to the tunable attributes keep the tunables in range: if
    every field is within the limits of its attribute, with
    [1 <= min_cpus <= max_cpus <= 8], before a series of writes, accepted
    or not, in any order, the same holds after it.  (The static
    initialisers are in range when [CONFIG_NR_CPUS] is between 2
    and 8.) *)
Theorem writes_keep_tunables_in_range writes st :
  tunables_in_range (tunables st) ->
  tunables_in_range (tunables (final (store_all writes) st)).
Proof.
  intros Hr. unfold store_all.
  apply (for_each_final (fun s => tunables_in_range (tunables s)));
    [|exact Hr].
  intros [[a parsed] count] s Hs. simpl.
  rewrite final_bind, final_ret. apply store_one_keeps_range. exact Hs.
Qed.

Lemma writes_keep_tunables_in_range_witness :
  tunables_in_range (tunables Scenario.loaded) /\
  tunables_in_range
    (tunables (final (store_all [(A_min_cpus, Some 9, 2);
                                  (A_max_cpus, Some 3, 2);
                                  (A_min_cpus, Some 3, 2);
                                  (A_cycle_up, Some 0, 2);
                                  (A_delay, None, 0);
                                  (A_max_cpus, Some 9, 2)])
                 Scenario.loaded)) /\
  min_cpus (tunables (final (store_all [(A_min_cpus, Some 9, 2);
                                         (A_max_cpus, Some 3, 2);
                                         (A_min_cpus, Some 3, 2);
                                         (A_cycle_up, Some 0, 2);
                                         (A_delay, None, 0);
                                  (A_max_cpus, Some 9, 2)])
                        Scenario.loaded)) = 3.
Proof.
  assert (Hr : tunables_in_range (tunables Scenario.loaded)).
  { unfold tunables_in_range. simpl. lia. }
  split; [exact Hr|]. split; [|reflexivity].
  apply (writes_keep_tunables_in_range _ Scenario.loaded Hr).
Defined.

(** X16. A write to a tunable attribute is accepted exactly when it
    parses to a value within the attribute's limits, those of [min_cpus]
    and [max_cpus] being each other's current value.  An accepted write
    returns [count], makes the field read back the value written and
    leaves every other field, and everything outside the tunables, as it
    was; any other write returns [-EINVAL] and changes nothing.  No write
    issues a hotplug request. *)
Theorem store_one_validates a parsed count st :
  match parsed with
  | Some val =>
      if (down_limit a (tunables st) <=? val) &&
         (val <=? up_limit a (tunables st))
      then
        result (store_one a parsed count) st = count /\
        attr_get a (tunables (final (store_one a parsed count) st)) = val /\
        (forall a', a' <> a ->
           attr_get a' (tunables (final (store_one a parsed count) st))
           = attr_get a' (tunables st)) /\
        set_tunables (tunables st) (final (store_one a parsed count) st) = st /\
        issued (store_one a parsed count) st = []
      else store_one a parsed count st = (- EINVAL, st, [])
  | None => store_one a parsed count st = (- EINVAL, st, [])
  end.
Proof.
  unfold result, final, issued. rewrite store_one_run.
  destruct parsed as [val|]; [|reflexivity].
  destruct (_ && _); [|reflexivity]. simpl.
  split; [reflexivity|]. split; [destruct a; reflexivity|].
  split; [|split; [destruct st; reflexivity | reflexivity]].
  intros a' Hne. destruct a, a'; try reflexivity; contradiction.
Qed.

Lemma store_one_validates_witness :
  result (store_min_cpus (Some 3) 2) Scenario.loaded = 2 /\
  min_cpus (tunables (final (store_min_cpus (Some 3) 2) Scenario.loaded)) = 3 /\
  max_cpus (tunables (final (store_min_cpus (Some 3) 2) Scenario.loaded)) = 4 /\
  store_min_cpus (Some 5) 2 Scenario.loaded = (- EINVAL, Scenario.loaded, []) /\
  store_max_cpus (Some 9) 2 Scenario.loaded = (- EINVAL, Scenario.loaded, []).
Proof.
  pose proof (store_one_validates A_min_cpus (Some 3) 2 Scenario.loaded) as H3.
  pose proof (store_one_validates A_min_cpus (Some 5) 2 Scenario.loaded) as H5.
  pose proof (store_one_validates A_max_cpus (Some 9) 2 Scenario.loaded) as H9.
  cbv beta iota in H3, H5, H9.
  change ((down_limit A_min_cpus (tunables Scenario.loaded) <=? 3) &&
          (3 <=? up_limit A_min_cpus (tunables Scenario.loaded)))
    with true in H3.
  change ((down_limit A_min_cpus (tunables Scenario.loaded) <=? 5) &&
          (5 <=? up_limit A_min_cpus (tunables Scenario.loaded)))
    with false in H5.
  change ((down_limit A_max_cpus (tunables Scenario.loaded) <=? 9) &&
          (9 <=? up_limit A_max_cpus (tunables Scenario.loaded)))
    with false in H9.
  cbv iota in H3, H5, H9.
  destruct H3 as (Hr & Hget & Hother & _).
  split; [exact Hr|]. split; [exact Hget|].
  split; [exact (Hother A_max_cpus ltac:(discriminate))|].
  split; [exact H5 | exact H9].
Defined.

Lemma init_tunables_in_range n :
  2 <= n <= 8 -> tunables_in_range (init_tunables n).
Proof. intros Hn. unfold tunables_in_range. simpl. lia. Qed.

(** ** Probe, and enabling then disabling *)

(** X17. [asmp_probe] never issues a hotplug request.  It returns
    [-EFAULT] when the kernel object cannot be created and the error of
    [sysfs_create_group] when that fails, changing nothing.  Otherwise,
    with [enabled] at 0 (its value when the module is loaded) it returns 0
    without starting the engine, and with [enabled] set it is
    [asmp_hotplug_start], error included. *)
Theorem probe_outcomes e st :
  issued (asmp_probe e) st = [] /\
  (kobject_create_ok e = false ->
   asmp_probe e st = (- EFAULT, st, [])) /\
  (kobject_create_ok e = true -> sysfs_create_group_ret e <> 0 ->
   asmp_probe e st = (sysfs_create_group_ret e, st, [])) /\
  (kobject_create_ok e = true -> sysfs_create_group_ret e = 0 ->
   enabled st = 0 ->
   asmp_probe e st = (0, st, [])) /\
  (kobject_create_ok e = true -> sysfs_create_group_ret e = 0 ->
   enabled st <> 0 ->
   asmp_probe e st = asmp_hotplug_start e st).
Proof.
  assert (Hstart : issued (asmp_hotplug_start e) st = []).
  { unfold asmp_hotplug_start, INIT_DELAYED_WORK.
    destruct (alloc_workqueue_ok e); [|reflexivity].
    destruct (state_register_client_ret e =? 0); autorewrite with run;
      reflexivity. }
  unfold asmp_probe. split; [|split; [|split; [|split]]].
  - destruct (kobject_create_ok e); [|reflexivity].
    destruct (negb (sysfs_create_group_ret e =? 0)); [reflexivity|].
    unfold issued. rewrite bind_get.
    destruct (enabled st =? 0); [reflexivity | exact Hstart].
  - intros ->. reflexivity.
  - intros -> Hs. apply Z.eqb_neq in Hs. rewrite Hs. reflexivity.
  - intros -> Hs Hen. rewrite Hs. change (negb (0 =? 0)) with false.
    cbv iota. rewrite bind_get, Hen. reflexivity.
  - intros -> Hs Hen. apply Z.eqb_neq in Hen.
    rewrite Hs. change (negb (0 =? 0)) with false.
    cbv iota. rewrite bind_get, Hen. reflexivity.
Qed.

Lemma probe_outcomes_witness :
  asmp_probe Scenario.busy_env Scenario.loaded = (0, Scenario.loaded, []) /\
  result (asmp_probe Scenario.no_workqueue_env)
    (set_enabled 1 Scenario.loaded) = - EFAULT.
Proof.
  destruct (probe_outcomes Scenario.busy_env Scenario.loaded)
    as (_ & _ & _ & Hidle & _).
  destruct (probe_outcomes Scenario.no_workqueue_env
              (set_enabled 1 Scenario.loaded)) as (_ & _ & _ & _ & Hgo).
  split.
  - apply Hidle; reflexivity.
  - unfold result. rewrite Hgo; [reflexivity | reflexivity | reflexivity |].
    discriminate.
Defined.

Lemma store_enabled_zero_run e count s :
  enabled s = 1 ->
  result (store_enabled e (Some 0) count) s = count /\
  final (store_enabled e (Some 0) count) s
  = final (asmp_hotplug_stop e) (set_enabled 0 s).
Proof.
  intros Hen. unfold store_enabled. autorewrite with run.
  rewrite Hen. simpl. autorewrite with run. split; reflexivity.
Qed.

(** X18. Enabling, then disabling.  From a disabled module, a write of 1
    on a machine where the start succeeds followed by a write of 0 are
    both accepted; afterwards the module is disabled again with no work
    pending, the notifier off the chain and the workqueue destroyed, the
    counter and the tunables are what they were, and, if every
    bring-online request is carried out, every present CPU other than
    CPU 0 is online. *)
Theorem enable_then_disable e1 e2 c1 c2 st :
  enabled st = 0 ->
  alloc_workqueue_ok e1 = true -> state_register_client_ret e1 = 0 ->
  let s1 := final (store_enabled e1 (Some 1) c1) st in
  let s2 := final (store_enabled e2 (Some 0) c2) s1 in
  result (store_enabled e1 (Some 1) c1) st = c1 /\
  asmp_wq s1 = WqLive /\
  result (store_enabled e2 (Some 0) c2) s1 = c2 /\
  enabled s2 = 0 /\
  asmp_work s2 = None /\
  notifier_registered s2 = false /\
  asmp_wq s2 = WqDestroyed /\
  cycle s2 = cycle st /\
  tunables s2 = tunables st /\
  ((forall a, arch_cpu_up_err e2 a = 0) ->
   forall c, (0 < c < nr_cpu_ids e2)%nat -> cpu_present c st = true ->
             cpu_online c s2 = true).
Proof.
  intros Hen Halloc Hreg s1 s2.
  assert (Hs1 : s1 = set_asmp_work (Some HOTPLUG_INIT_DELAY)
                       (set_notifier_registered true
                          (set_asmp_wq WqLive (set_enabled 1 st)))).
  { subst s1. unfold final, store_enabled. rewrite bind_get, Hen. simpl.
    unfold asmp_hotplug_start, INIT_DELAYED_WORK. rewrite Halloc, Hreg.
    reflexivity. }
  assert (Hen1 : enabled s1 = 1) by (rewrite Hs1; reflexivity).
  destruct (store_enabled_zero_run e2 c2 s1 Hen1) as [Hr2 Hs2].
  fold s2 in Hs2.
  destruct (cpu_loop_frame (stop_body e2) (stop_body_change e2)
              (for_each_cpu_not (nr_cpu_ids e2)
                 (cpu_online_mask (set_enabled 0 s1)))
              (set_asmp_wq WqDestroyed
                 (set_notifier_registered false
                    (set_asmp_work None (set_enabled 0 s1)))))
    as (m & Hm & _).
  rewrite <- asmp_hotplug_stop_final, <- Hs2 in Hm.
  split; [apply (store_enabled_drops_start_result e1 c1 st Hen)|].
  split; [rewrite Hs1; reflexivity|].
  split; [exact Hr2|].
  split; [rewrite Hm; reflexivity|]. split; [rewrite Hm; reflexivity|].
  split; [rewrite Hm; reflexivity|]. split; [rewrite Hm; reflexivity|].
  split; [rewrite Hm, Hs1; reflexivity|].
  split; [rewrite Hm, Hs1; reflexivity|].
  intros Herr c Hc Hp. rewrite Hs2.
  apply stop_online_present; [exact Herr | exact Hc|].
  rewrite Hs1. exact Hp.
Qed.

Lemma enable_then_disable_witness :
  enabled Scenario.loaded = 0 /\
  cpu_online 2 Scenario.loaded = false /\
  cpu_online 2
    (final (store_enabled Scenario.busy_env (Some 0) 2)
       (final (store_enabled Scenario.busy_env (Some 1) 2) Scenario.loaded))
  = true.
Proof.
  split; [reflexivity|]. split; [reflexivity|].
  destruct (enable_then_disable Scenario.busy_env Scenario.busy_env 2 2
              Scenario.loaded eq_refl eq_refl eq_refl)
    as (_ & _ & _ & _ & _ & _ & _ & _ & _ & Hon).
  apply Hon.
  - intros a. reflexivity.
  - vm_compute. lia.
  - reflexivity.
Defined.
